(** * The housing dashboard: column cleaning, classification and chart queries

    A shallow embedding of [unified_housing_dashboard.py].  The script loads a
    table with pandas, drops sparse columns, splits the column labels into a
    categorical and a numerical list, and serves four Dash callbacks that turn
    the current dropdown values into plotly express figures.

    The pandas and plotly express calls are embedded by their documented
    behaviour, one definition per call, named after the call. *)

From Stdlib Require Import List String Ascii ZArith QArith Bool Arith Lia.
From Stdlib Require Import Permutation Sorted Finite.
Import ListNotations.

Local Close Scope Q_scope.
Local Open Scope nat_scope.
Local Open Scope string_scope.
Local Open Scope list_scope.

(** ** Tables *)

Module Frame.

(** A present cell holds a text, a number or a truth value.  Every numeric
    column of the housing table holds whole numbers and the script never
    computes with them (it groups on them and hands them to the plots), so a
    number is an integer here. *)
Inductive scalar : Type :=
| Str (s : string)
| Num (z : Z)
| Bool (b : bool).

(** [None] is the missing cell (NaN). *)
Definition cell : Type := option scalar.

(** The storage types [read_csv] infers. *)
Inductive dtype : Type := object | int64 | float64 | bool_.

Record Series : Type := mkSeries {
  label : string;
  kind : dtype;
  cells : list cell
}.

(** [nrows] is the length of the row index; it is kept beside the columns
    because a table may have rows and no column. *)
Record DataFrame : Type := mkFrame {
  nrows : nat;
  columns : list Series
}.

Definition labels (df : DataFrame) : list string := map label (columns df).

(** Python's [x in l] on a list of strings. *)
Definition mem (x : string) (l : list string) : bool :=
  existsb (String.eqb x) l.

(** Python's [l.remove(x)] where [x] is known to occur: the first occurrence
    goes. *)
Fixpoint remove_first (x : string) (l : list string) : list string :=
  match l with
  | [] => []
  | y :: t => if String.eqb x y then t else y :: remove_first x t
  end.

(** What [read_csv] guarantees of the table it builds: every column has one
    cell per row, and repeated header names are renamed apart. *)
Definition rectangular (df : DataFrame) : bool :=
  forallb (fun c => Nat.eqb (List.length (cells c)) (nrows df)) (columns df).

Fixpoint distinct (l : list string) : bool :=
  match l with
  | [] => true
  | x :: t => negb (mem x t) && distinct t
  end.

Definition unique_labels (df : DataFrame) : bool := distinct (labels df).

(** *** [df.isnull().mean() < 0.5] *)

Definition isnull (c : cell) : bool :=
  match c with None => true | Some _ => false end.

Definition count_true (l : list bool) : nat := List.length (filter (fun b => b) l).

(** The mean of a boolean column is the sum of its ones over its length; over
    no row it is NaN, here [None].  The quotient is kept exact: below 2^53
    rows the rounded quotient is under 0.5 exactly when the exact one is. *)
Definition mean (l : list bool) : option Q :=
  match l with
  | [] => None
  | _ => Some (inject_Z (Z.of_nat (count_true l)) / inject_Z (Z.of_nat (List.length l)))%Q
  end.

(** A comparison with NaN is false. *)
Definition lt_half (m : option Q) : bool :=
  match m with
  | None => false
  | Some q => negb (Qle_bool (1 # 2)%Q q)
  end.

Definition isnull_mean (c : Series) : option Q := mean (map isnull (cells c)).

(** [df.loc[:, mask]]: the columns whose mask entry is true; the rows stay. *)
Definition loc_columns (mask : Series -> bool) (df : DataFrame) : DataFrame :=
  mkFrame (nrows df) (filter mask (columns df)).

(** Line 14: [df = df.loc[:, df.isnull().mean() < 0.5]]. *)
Definition clean (df : DataFrame) : DataFrame :=
  loc_columns (fun c => lt_half (isnull_mean c)) df.

(** *** [select_dtypes] *)

Definition is_object (d : dtype) : bool :=
  match d with object => true | _ => false end.

(** [np.number] covers the integer and floating types, not [bool]. *)
Definition is_number (d : dtype) : bool :=
  match d with int64 | float64 => true | _ => false end.

Definition select_dtypes (include : dtype -> bool) (df : DataFrame) : list string :=
  map label (filter (fun c => include (kind c)) (columns df)).

End Frame.

Import Frame.

(** ** Module-level state of the script (lines 11 to 28) *)

Record Globals : Type := mkGlobals {
  df : DataFrame;
  categorical_cols : list string;
  numerical_cols : list string;
  numerical_features_for_comparison : list string;
  all_features : list string
}.

(** Lines 17 to 24: the two [select_dtypes] lists and the [MSSubClass]
    override, as the pair (categorical, numerical). *)
Definition classify (d : DataFrame) : list string * list string :=
  let categorical := select_dtypes is_object d in
  let numerical := select_dtypes is_number d in
  if mem "MSSubClass" (labels d) && negb (mem "MSSubClass" categorical) then
    (categorical ++ ["MSSubClass"],
     if mem "MSSubClass" numerical then remove_first "MSSubClass" numerical
     else numerical)
  else (categorical, numerical).

(** Line 27. *)
Definition drop_target (numerical : list string) : list string :=
  filter (fun col => negb (String.eqb col "SalePrice")) numerical.

(** Everything the script computes before the app starts, from the table
    [read_csv] returned. *)
Definition startup (raw : DataFrame) : Globals :=
  let d := clean raw in
  let '(categorical, numerical) := classify d in
  let comparison := drop_target numerical in
  mkGlobals d categorical numerical comparison (categorical ++ comparison).

(** The missing-fraction of the specification: missing cells over row count,
    undefined over no row. *)
Definition missing_count (c : Series) : nat :=
  List.length (filter isnull (cells c)).

Definition missing_fraction (d : DataFrame) (c : Series) : option Q :=
  match nrows d with
  | O => None
  | S _ => Some (Z.of_nat (missing_count c) # Pos.of_nat (nrows d))%Q
  end.

(** ** Exceptions *)

(** The two exception classes the pandas and plotly calls of the script raise
    on a bad column name. *)
Inductive exn : Type :=
| KeyError (key : string)
| ValueError (msg : string).

Definition exn_class (e : exn) : string :=
  match e with
  | KeyError _ => "KeyError"
  | ValueError _ => "ValueError"
  end.

Inductive result (A : Type) : Type :=
| Ok (a : A)
| Raise (e : exn).

Arguments Ok {A} a.
Arguments Raise {A} e.

Definition bind {A B : Type} (r : result A) (k : A -> result B) : result B :=
  match r with
  | Ok a => k a
  | Raise e => Raise e
  end.

Notation "x <- r ;; k" := (bind r (fun x => k))
  (at level 61, r at next level, right associativity).

(** ** Counting and grouping *)

Definition scalar_eqb (a b : scalar) : bool :=
  match a, b with
  | Str s, Str t => String.eqb s t
  | Num m, Num n => Z.eqb m n
  | Bool p, Bool q => Bool.eqb p q
  | _, _ => false
  end.

(** The order group keys are sorted in: numbers by size, texts by code point.
    The cells of one column are of one sort, so the order across sorts (numbers,
    then truth values, then texts) is never what decides. *)
Definition rank (a : scalar) : nat :=
  match a with Num _ => 0 | Bool _ => 1 | Str _ => 2 end.

Definition scalar_leb (a b : scalar) : bool :=
  match a, b with
  | Str s, Str t => String.leb s t
  | Num m, Num n => Z.leb m n
  | Bool p, Bool q => implb p q
  | _, _ => Nat.leb (rank a) (rank b)
  end.

Definition key2 : Type := (scalar * scalar)%type.

Definition key2_eqb (a b : key2) : bool :=
  scalar_eqb (fst a) (fst b) && scalar_eqb (snd a) (snd b).

Definition key2_leb (a b : key2) : bool :=
  if scalar_eqb (fst a) (fst b) then scalar_leb (snd a) (snd b)
  else scalar_leb (fst a) (fst b).

Section Tally.

Context {K : Type} (eqb : K -> K -> bool).

(** One more occurrence of [k]: its counter goes up, or a new counter is
    opened after the ones already there. *)
Fixpoint bump (k : K) (acc : list (K * nat)) : list (K * nat) :=
  match acc with
  | [] => [(k, 1)]
  | (k', n) :: t => if eqb k k' then (k', S n) :: t else (k', n) :: bump k t
  end.

(** Occurrences per distinct key, keys in order of first appearance. *)
Definition tally (l : list K) : list (K * nat) :=
  fold_left (fun acc k => bump k acc) l [].

Definition occurrences (k : K) (l : list K) : nat :=
  List.length (filter (eqb k) l).

(** The counter a list of counters holds for a key, zero when it has none. *)
Fixpoint counter (k : K) (acc : list (K * nat)) : nat :=
  match acc with
  | [] => 0
  | (k', n) :: t => if eqb k k' then n else counter k t
  end.

(** The state of the counters after the rows [l]. *)
Definition counts_of (acc : list (K * nat)) (l : list K) : Prop :=
  NoDup (map fst acc)
  /\ Forall (fun b => 0 < snd b) acc
  /\ (forall k, In k (map fst acc) <-> In k l)
  /\ (forall k, counter k acc = occurrences k l).

End Tally.

Section Sort.

Context {A : Type} (leb : A -> A -> bool).

Fixpoint insert_sorted (a : A) (l : list A) : list A :=
  match l with
  | [] => [a]
  | b :: t => if leb a b then a :: b :: t else b :: insert_sorted a t
  end.

(** A stable sort: of two entries that compare equal, the earlier stays
    first. *)
Definition sort_by (l : list A) : list A := fold_right insert_sorted [] l.

End Sort.

Definition total {K : Type} (buckets : list (K * nat)) : nat :=
  fold_right (fun b acc => snd b + acc) 0 buckets.

(** The present cells of a column, in row order. *)
Fixpoint dropna (l : list cell) : list scalar :=
  match l with
  | [] => []
  | Some v :: t => v :: dropna t
  | None :: t => dropna t
  end.

(** The rows of two columns in which both cells are present. *)
Fixpoint dropna2 (l1 l2 : list cell) : list key2 :=
  match l1, l2 with
  | Some a :: t1, Some b :: t2 => (a, b) :: dropna2 t1 t2
  | _ :: t1, _ :: t2 => dropna2 t1 t2
  | _, _ => []
  end.

(** [df[col]]: the column of that label, [KeyError] when there is none. *)
Definition getitem (d : DataFrame) (col : string) : result Series :=
  match find (fun c => String.eqb (label c) col) (columns d) with
  | Some c => Ok c
  | None => Raise (KeyError col)
  end.

(** *** [Series.value_counts()] *)

(** A counted series: the name of its index, its own name, and a count per
    index value. *)
Record Counts (K : Type) : Type := mkCounts {
  index_names : list string;
  name : string;
  entries : list (K * nat)
}.

Arguments mkCounts {K} index_names name entries.
Arguments index_names {K} c.
Arguments name {K} c.
Arguments entries {K} c.

Definition count_geb {K : Type} (a b : K * nat) : bool := Nat.leb (snd b) (snd a).

(** Missing cells are not counted, and the most frequent value comes first.
    Among equally frequent values pandas promises no order and its releases
    differ; the order taken here, the value seen first stays first, is one of
    them and nothing below rests on it.  The result is named "count" and its index carries the
    column's label (pandas 2; pandas 1 names them the other way round, and the
    callback relabels both columns in its next line). *)
Definition value_counts (s : Series) : Counts scalar :=
  mkCounts [label s] "count"
           (sort_by count_geb (tally scalar_eqb (dropna (cells s)))).

(** *** [df.groupby([k1, k2]).size()] *)

(** Rows with a missing key are left out; groups come sorted by key. *)
Definition groupby_size (d : DataFrame) (k1 k2 : string) : result (Counts key2) :=
  c1 <- getitem d k1 ;;
  c2 <- getitem d k2 ;;
  Ok (mkCounts [k1; k2] "size"%string
        (sort_by (fun a b => key2_leb (fst a) (fst b))
                 (tally key2_eqb (dropna2 (cells c1) (cells c2))))).

(** *** [reset_index] *)

(** [DataFrame.insert(0, col, values)]: a label that is already there is
    refused. *)
Definition insert_front (col : Series) (d : DataFrame) : result DataFrame :=
  if mem (label col) (labels d)
  then Raise (ValueError ("cannot insert " ++ label col ++ ", already exists"))
  else Ok (mkFrame (nrows d) (col :: columns d)).

Definition count_column (nm : string) {K : Type} (e : list (K * nat)) : Series :=
  mkSeries nm int64 (map (fun b => Some (Num (Z.of_nat (snd b)))) e).

Definition kind_of (v : scalar) : dtype :=
  match v with Str _ => object | Num _ => int64 | Bool _ => bool_ end.

Definition key_column (nm : string) (vals : list scalar) : Series :=
  mkSeries nm (match vals with v :: _ => kind_of v | [] => object end)
           (map Some vals).

(** [s.reset_index()] on a series with one index level: the counts become a
    column under the series' name and the index is inserted before it. *)
Definition reset_index1 (s : Counts scalar) : result DataFrame :=
  insert_front (key_column (hd "index" (index_names s)) (map fst (entries s)))
               (mkFrame (List.length (entries s)) [count_column (name s) (entries s)]).

(** [s.reset_index(name=nm)] on a series with two index levels: the counts
    become the column [nm]; the levels are inserted in front, the last one
    first. *)
Definition reset_index2 (nm : string) (s : Counts key2) : result DataFrame :=
  let k1 := nth 0 (index_names s) "level_0" in
  let k2 := nth 1 (index_names s) "level_1" in
  d0 <- Ok (mkFrame (List.length (entries s)) [count_column nm (entries s)]) ;;
  d1 <- insert_front (key_column k2 (map (fun b => snd (fst b)) (entries s))) d0 ;;
  insert_front (key_column k1 (map (fun b => fst (fst b)) (entries s))) d1.

(** [counts.columns = [a, b]]: the table it is applied to has two columns. *)
Definition set_columns2 (a b : string) (d : DataFrame) : DataFrame :=
  match columns d with
  | [c1; c2] => mkFrame (nrows d) [mkSeries a (kind c1) (cells c1);
                                   mkSeries b (kind c2) (cells c2)]
  | _ => d
  end.

(** ** plotly express *)

Inductive mark : Type := bar | box | scatter | histogram.

(** What a plotly express call fixes of a figure: the kind of trace, the
    columns bound to x, y and colour (row by row, as found in the table), the
    bin request and marginal of a histogram, and the titles.  Bars, boxes and
    bins are drawn from these by the renderer. *)
Record Figure : Type := mkFigure {
  fig_mark : mark;
  fig_x : list cell;
  fig_y : option (list cell);
  fig_color : option (list cell);
  fig_nbins : option nat;
  fig_marginal : option mark;
  fig_title : string;
  fig_xaxis_title : string;
  fig_yaxis_title : string
}.

(** A column argument given by name must name one column of the table; plotly
    express raises [ValueError] otherwise.  Of the exception only the class is
    plotly's: the message is cut short (plotly goes on to list the columns it
    expected), and for a label the table holds twice its wording varies
    between releases. *)
Definition px_column (d : DataFrame) (arg col : string) : result (list cell) :=
  match filter (fun c => String.eqb (label c) col) (columns d) with
  | [c] => Ok (cells c)
  | [] => Raise (ValueError ("Value of '" ++ arg ++
                 "' is not the name of a column in 'data_frame'. Received: " ++ col))
  | _ => Raise (ValueError ("Column label is not unique: " ++ col))
  end.

Definition px_optional (d : DataFrame) (arg : string) (col : option string)
  : result (option (list cell)) :=
  match col with
  | None => Ok None
  | Some c => v <- px_column d arg c ;; Ok (Some v)
  end.

Definition px_bar (d : DataFrame) (x y : string) (color : option string)
    (title : string) : result Figure :=
  xs <- px_column d "x" x ;;
  ys <- px_column d "y" y ;;
  cs <- px_optional d "color" color ;;
  Ok (mkFigure bar xs (Some ys) cs None None title x y).

Definition px_box (d : DataFrame) (x y title : string) : result Figure :=
  xs <- px_column d "x" x ;;
  ys <- px_column d "y" y ;;
  Ok (mkFigure box xs (Some ys) None None None title x y).

Definition px_scatter (d : DataFrame) (x y title : string) : result Figure :=
  xs <- px_column d "x" x ;;
  ys <- px_column d "y" y ;;
  Ok (mkFigure scatter xs (Some ys) None None None title x y).

Definition px_histogram (d : DataFrame) (x : string) (nbins : nat)
    (title : string) (marginal : mark) : result Figure :=
  xs <- px_column d "x" x ;;
  Ok (mkFigure histogram xs None None (Some nbins) (Some marginal) title x "count").

(** [fig.update_layout(xaxis_title=..., yaxis_title=...)]. *)
Definition update_layout (fig : Figure) (xaxis_title yaxis_title : string) : Figure :=
  mkFigure (fig_mark fig) (fig_x fig) (fig_y fig) (fig_color fig) (fig_nbins fig)
           (fig_marginal fig) (fig_title fig) xaxis_title yaxis_title.

(** ** The four callbacks (lines 126 to 173) *)

Definition update_comparison_plot (g : Globals)
    (categorical_col comparison_col : string) : result Figure :=
  fig <- (if mem comparison_col (categorical_cols g) then
            sizes <- groupby_size (df g) categorical_col comparison_col ;;
            grouped_counts <- reset_index2 "Count" sizes ;;
            px_bar grouped_counts categorical_col "Count" (Some comparison_col)
                   ("Count of " ++ categorical_col ++ " by " ++ comparison_col)
          else
            px_box (df g) categorical_col comparison_col
                   (comparison_col ++ " Distribution by " ++ categorical_col)) ;;
  Ok (update_layout fig categorical_col comparison_col).

Definition update_categorical_count_plot (g : Globals)
    (categorical_col : string) : result Figure :=
  column <- getitem (df g) categorical_col ;;
  counts <- reset_index1 (value_counts column) ;;
  let counts := set_columns2 categorical_col "Count" counts in
  fig <- px_bar counts categorical_col "Count" None
                ("Count of Properties by " ++ categorical_col) ;;
  Ok (update_layout fig categorical_col "Count").

Definition update_scatter_plot (g : Globals) (x_col y_col : string) : result Figure :=
  px_scatter (df g) x_col y_col (y_col ++ " vs " ++ x_col).

Definition update_sale_price_histogram (g : Globals) (_ : string) : result Figure :=
  fig <- px_histogram (df g) "SalePrice" 50 "Distribution of Sale Price" box ;;
  Ok (update_layout fig "Sale Price" "Count").

(** ** The Dash wiring *)

(** The values the four dropdowns hold. *)
Record Selection : Type := mkSelection {
  categorical_dropdown : string;
  comparison_dropdown : string;
  x_axis_dropdown : string;
  y_axis_dropdown : string
}.

(** The property of a component a callback declares as [Input]: a dropdown's
    [value] is the selection, a component's [id] is its own id. *)
Definition input_value (sel : Selection) (component property : string) : option string :=
  if String.eqb property "id" then Some component
  else if String.eqb property "value" then
    if String.eqb component "categorical-dropdown" then Some (categorical_dropdown sel)
    else if String.eqb component "comparison-dropdown" then Some (comparison_dropdown sel)
    else if String.eqb component "x-axis-dropdown" then Some (x_axis_dropdown sel)
    else if String.eqb component "y-axis-dropdown" then Some (y_axis_dropdown sel)
    else None
  else None.

(** The graphs, named by the output each callback feeds. *)
Inductive graph : Type :=
| comparison_plot
| categorical_count_plot
| scatter_plot
| sale_price_histogram.

(** The [Input] list of each [@app.callback]. *)
Definition inputs (o : graph) : list (string * string) :=
  match o with
  | comparison_plot => [("categorical-dropdown", "value"); ("comparison-dropdown", "value")]
  | categorical_count_plot => [("categorical-dropdown", "value")]
  | scatter_plot => [("x-axis-dropdown", "value"); ("y-axis-dropdown", "value")]
  | sale_price_histogram => [("sale-price-histogram", "id")]
  end.

Definition handler (g : Globals) (o : graph) (args : list string) : option (result Figure) :=
  match o, args with
  | comparison_plot, [a; b] => Some (update_comparison_plot g a b)
  | categorical_count_plot, [a] => Some (update_categorical_count_plot g a)
  | scatter_plot, [a; b] => Some (update_scatter_plot g a b)
  | sale_price_histogram, [a] => Some (update_sale_price_histogram g a)
  | _, _ => None
  end.

Fixpoint gather (sel : Selection) (ins : list (string * string)) : option (list string) :=
  match ins with
  | [] => Some []
  | (c, p) :: t =>
      match input_value sel c p, gather sel t with
      | Some v, Some vs => Some (v :: vs)
      | _, _ => None
      end
  end.

(** Dash reads the declared inputs off the page and calls the function. *)
Definition render (g : Globals) (sel : Selection) (o : graph) : option (result Figure) :=
  match gather sel (inputs o) with
  | Some args => handler g o args
  | None => None
  end.

(** ** Reading a figure *)

(** The bars of a bar figure: the x value and the height of each row. *)
Definition height (c : cell) : nat :=
  match c with Some (Num z) => Z.to_nat z | _ => 0 end.

Definition buckets (fig : Figure) : list (cell * nat) :=
  match fig_y fig with
  | Some ys => combine (fig_x fig) (map height ys)
  | None => []
  end.

(** The groups [groupby_size] forms from two columns. *)
Definition group_sizes (c1 c2 : Series) : list (key2 * nat) :=
  sort_by (fun a b => key2_leb (fst a) (fst b))
          (tally key2_eqb (dropna2 (cells c1) (cells c2))).

(** ** Row counts the statements speak of *)


(** The rows in which neither of two columns is missing. *)
Definition rows_with_both (c1 c2 : Series) : nat :=
  List.length (filter (fun r => negb (isnull (fst r)) && negb (isnull (snd r)))
                      (combine (cells c1) (cells c2))).

(** A column without a missing cell. *)
Definition complete (c : Series) : bool :=
  forallb (fun x => negb (isnull x)) (cells c).

(** The columns labelled [SalePrice]. *)
Definition sale_price_columns (d : DataFrame) : list Series :=
  filter (fun c => String.eqb (label c) "SalePrice") (columns d).

(** ** The page (lines 36 to 117) *)

(** The components the script lays out, each with the arguments it is given. *)
#[warnings="-register-all"] Inductive component : Type :=
| Container (children : list component)
| Row (children : list component) (className : string)
| Col (children : list component) (width : nat)
| H1 (text className : string)
| H2 (text className : string)
| Label (text : string)
| Dropdown (id : string) (options : list (string * string)) (value : string)
           (clearable : bool)
| Graph (id : string)
| Tab (label tab_id : string)
| Tabs (children : list component) (id active_tab : string)
| Div (id : string).

(** Lines 36 to 48. *)
Definition app_layout : component :=
  Container
    [ Row [Col [H1 "Unified Housing Data Dashboard" "text-center mb-4"] 12] "";
      Tabs [Tab "Categorical Comparison" "tab-categorical";
            Tab "Numerical Comparison" "tab-numerical"]
           "tabs" "tab-categorical";
      Div "tab-content" ].

(** [[{'label': col, 'value': col} for col in cols]]. *)
Definition options_of (cols : list string) : list (string * string) :=
  map (fun col => (col, col)) cols.

(** Lines 53 to 117; a tab id that is neither of the two falls off the end of
    the function, which is Python's [None]. *)
Definition render_tab_content (g : Globals) (tab : string) : option component :=
  if String.eqb tab "tab-categorical" then
    Some (Container
      [ Row [ Col [ Label "Select Categorical Variable:";
                    Dropdown "categorical-dropdown" (options_of (categorical_cols g))
                             "Neighborhood" false ] 6;
              Col [ Label "Compare with:";
                    Dropdown "comparison-dropdown"
                             (options_of (all_features g ++ ["SalePrice"]))
                             "SalePrice" false ] 6 ] "mb-4";
        Row [ Col [Graph "comparison-plot"] 12 ] "";
        Row [ Col [H2 "Distribution of Categorical Variable" "text-center mt-4 mb-3"] 12 ] "";
        Row [ Col [Graph "categorical-count-plot"] 12 ] "" ])
  else if String.eqb tab "tab-numerical" then
    Some (Container
      [ Row [ Col [ Label "Select X-axis Variable:";
                    Dropdown "x-axis-dropdown"
                             (options_of (numerical_features_for_comparison g))
                             "GrLivArea" false ] 6;
              Col [ Label "Select Y-axis Variable:";
                    Dropdown "y-axis-dropdown"
                             (options_of (numerical_features_for_comparison g ++ ["SalePrice"]))
                             "SalePrice" false ] 6 ] "mb-4";
        Row [ Col [Graph "scatter-plot"] 12 ] "";
        Row [ Col [H2 "Distribution of Sale Price" "text-center mt-4 mb-3"] 12 ] "";
        Row [ Col [Graph "sale-price-histogram"] 12 ] "" ])
  else None.

(** The [Output] id of each callback. *)
Definition output_id (o : graph) : string :=
  match o with
  | comparison_plot => "comparison-plot"
  | categorical_count_plot => "categorical-count-plot"
  | scatter_plot => "scatter-plot"
  | sale_price_histogram => "sale-price-histogram"
  end.

(** The dropdowns of a page: id, offered values, initial value. *)
Fixpoint dropdowns (c : component) : list (string * list string * string) :=
  match c with
  | Container cs | Row cs _ | Col cs _ | Tabs cs _ _ => flat_map dropdowns cs
  | Dropdown id options value _ => [(id, map snd options, value)]
  | _ => []
  end.

(** The ids a page gives its components. *)
Fixpoint ids (c : component) : list string :=
  match c with
  | Container cs | Row cs _ | Col cs _ => flat_map ids cs
  | Tabs cs id _ => id :: flat_map ids cs
  | Dropdown id _ _ _ | Graph id | Div id => [id]
  | _ => []
  end.

(** The tab ids of a page. *)
Fixpoint tab_ids (c : component) : list string :=
  match c with
  | Container cs | Row cs _ | Col cs _ | Tabs cs _ _ => flat_map tab_ids cs
  | Tab _ tab_id => [tab_id]
  | _ => []
  end.

(** The tab a page opens on. *)
Fixpoint active_tabs (c : component) : list string :=
  match c with
  | Container cs | Row cs _ | Col cs _ => flat_map active_tabs cs
  | Tabs _ _ active => [active]
  | _ => []
  end.

(** The values the dropdowns of a page offer, all together. *)
Definition offered (page : component) : list string :=
  flat_map (fun d => snd (fst d)) (dropdowns page).

(** The rows in which a column is present. *)
Definition present_count (c : Series) : nat :=
  List.length (dropna (cells c)).

(** The rows in which two columns hold the pair [(u, v)]. *)
Definition rows_with_pair (u v : scalar) (c1 c2 : Series) : nat :=
  List.length (filter (fun r => match r with
                                | (Some a, Some b) => scalar_eqb u a && scalar_eqb v b
                                | _ => false
                                end) (combine (cells c1) (cells c2))).

(** The bars of a coloured bar figure: x value, colour value and height of
    each row. *)
Definition coloured_buckets (fig : Figure) : list (cell * cell * nat) :=
  match fig_y fig, fig_color fig with
  | Some ys, Some cs => combine (combine (fig_x fig) cs) (map height ys)
  | _, _ => []
  end.

(** ** Sample tables *)

(** Four sales: [Street] lacks one cell in four and stays, [Alley] lacks two
    in four and goes. *)
Definition four_sales : DataFrame :=
  mkFrame 4
    [ mkSeries "Neighborhood" object
        [Some (Str "NAmes"); Some (Str "Edwards"); Some (Str "NAmes"); Some (Str "NAmes")];
      mkSeries "Street" object
        [Some (Str "Pave"); None; Some (Str "Grvl"); Some (Str "Pave")];
      mkSeries "Alley" object
        [None; None; Some (Str "Grvl"); Some (Str "Pave")];
      mkSeries "MSSubClass" int64
        [Some (Num 20); Some (Num 60); Some (Num 20); Some (Num 20)];
      mkSeries "GrLivArea" int64
        [Some (Num 1710); Some (Num 1262); Some (Num 1786); Some (Num 1717)];
      mkSeries "SalePrice" int64
        [Some (Num 208500); Some (Num 181500); Some (Num 223500); Some (Num 140000)] ].

Definition street : Series :=
  mkSeries "Street" object
    [Some (Str "Pave"); None; Some (Str "Grvl"); Some (Str "Pave")].

(** The prices of [four_sales] alone. *)
Definition prices_only : DataFrame :=
  mkFrame 4
    [ mkSeries "SalePrice" int64
        [Some (Num 208500); Some (Num 181500); Some (Num 223500); Some (Num 140000)] ].

(** A header and no row. *)
Definition header_only : DataFrame :=
  mkFrame 0
    [ mkSeries "Neighborhood" object [];
      mkSeries "MSSubClass" int64 [];
      mkSeries "SalePrice" int64 [] ].

(** Four sales, two of them without a price. *)
Definition sparse_prices : DataFrame :=
  mkFrame 4
    [ mkSeries "Neighborhood" object
        [Some (Str "NAmes"); Some (Str "Edwards"); Some (Str "NAmes"); Some (Str "NAmes")];
      mkSeries "SalePrice" float64
        [Some (Num 208500); None; None; Some (Num 140000)] ].

Definition sparse_price_column : Series :=
  mkSeries "SalePrice" float64 [Some (Num 208500); None; None; Some (Num 140000)].

(** A table with a text column labelled [Count]. *)
Definition counted : DataFrame :=
  mkFrame 2
    [ mkSeries "Neighborhood" object [Some (Str "NAmes"); Some (Str "Edwards")];
      mkSeries "Count" object [Some (Str "one"); Some (Str "two")];
      mkSeries "SalePrice" int64 [Some (Num 208500); Some (Num 181500)] ].




(** ** The cleaning step *)

Lemma mem_In (x : string) (l : list string) : mem x l = true <-> In x l.
Proof.
  unfold mem. rewrite existsb_exists. split.
  - intros [y [Hy E]]. apply String.eqb_eq in E. now subst.
  - intros H. exists x. split; [assumption | apply String.eqb_refl].
Qed.

Lemma mem_false (x : string) (l : list string) : mem x l = false <-> ~ In x l.
Proof.
  rewrite <- mem_In. destruct (mem x l); split; intros; try congruence; tauto.
Qed.

Lemma count_true_isnull (l : list cell) :
  count_true (map isnull l) = List.length (filter isnull l).
Proof.
  unfold count_true. induction l as [| c t IH]; simpl; [reflexivity |].
  destruct (isnull c); simpl; now rewrite IH.
Qed.

Lemma Z_of_succ_pos (n : nat) : Z.of_nat (S n) = Z.pos (Pos.of_nat (S n)).
Proof.
  rewrite <- Pos.of_nat_succ. now rewrite Zpos_P_of_succ_nat, Nat2Z.inj_succ.
Qed.

(** The mean pandas computes is the missing-fraction of the specification. *)
Lemma isnull_mean_fraction (d : DataFrame) (c : Series) :
  List.length (cells c) = nrows d ->
  match isnull_mean c, missing_fraction d c with
  | None, None => True
  | Some p, Some q => (p == q)%Q
  | _, _ => False
  end.
Proof.
  intros Hlen. unfold isnull_mean, missing_fraction, missing_count.
  rewrite <- Hlen, <- count_true_isnull, <- (length_map isnull).
  destruct (map isnull (cells c)) as [| b t]; [exact I |].
  unfold mean. change (List.length (b :: t)) with (S (List.length t)).
  rewrite Z_of_succ_pos. symmetry. apply Qmake_Qdiv.
Qed.

Lemma lt_half_spec (m : option Q) :
  lt_half m = true <-> exists q, m = Some q /\ (q < 1 # 2)%Q.
Proof.
  destruct m as [q |]; simpl.
  - rewrite negb_true_iff. split.
    + intros H. exists q. split; [reflexivity |].
      apply Qnot_le_lt. intros Hle. apply Qle_bool_iff in Hle. congruence.
    + intros [q' [E H]]. injection E as <-.
      destruct (Qle_bool (1 # 2) q) eqn:B; [| reflexivity].
      apply Qle_bool_iff in B. exfalso. exact (Qlt_not_le _ _ H B).
  - split; [discriminate | intros [q [E _]]; discriminate].
Qed.

Lemma rectangular_length (d : DataFrame) (c : Series) :
  rectangular d = true -> In c (columns d) -> List.length (cells c) = nrows d.
Proof.
  unfold rectangular. rewrite forallb_forall. intros H Hc.
  apply Nat.eqb_eq. now apply H.
Qed.

(** The same in whole numbers: a column stays when twice its missing cells
    are fewer than the rows. *)
Lemma clean_keeps_counts (raw : DataFrame) (c : Series) :
  rectangular raw = true ->
  In c (columns raw) ->
  (In c (columns (clean raw)) <-> 2 * missing_count c < nrows raw).
Proof.
  intros Hrect Hc.
  pose proof (isnull_mean_fraction raw c (rectangular_length raw c Hrect Hc)) as Hm.
  unfold clean, loc_columns. simpl columns. rewrite filter_In, lt_half_spec.
  unfold missing_fraction in Hm.
  destruct (isnull_mean c) as [p |], (nrows raw) as [| k] eqn:N; try contradiction.
  - assert (Hq : (Z.of_nat (missing_count c) # Pos.of_nat (S k) < 1 # 2)%Q
                 <-> 2 * missing_count c < S k).
    { unfold Qlt. cbn [Qnum Qden]. rewrite <- Z_of_succ_pos. lia. }
    rewrite <- Hq, <- Hm. split.
    + intros [_ [p' [E H]]]. now injection E as <-.
    + intros H. split; [assumption |]. now exists p.
  - split; [intros [_ [q [E _]]]; discriminate | lia].
Qed.

(** C1. A column of the loaded table is kept by the cleaning step exactly when
    its missing-fraction (missing cells over row count) is defined and
    strictly below one half; a column whose missing-fraction is one half or
    more is not in the cleaned table. *)
Theorem clean_keeps_below_half (raw : DataFrame) (c : Series) :
  rectangular raw = true ->
  In c (columns raw) ->
  (In c (columns (clean raw)) <->
     exists f, missing_fraction raw c = Some f /\ (f < 1 # 2)%Q)
  /\ (forall f, missing_fraction raw c = Some f -> (1 # 2 <= f)%Q ->
        ~ In c (columns (clean raw))).
Proof.
  intros Hrect Hc.
  pose proof (isnull_mean_fraction raw c (rectangular_length raw c Hrect Hc)) as Hm.
  assert (Hiff : In c (columns (clean raw)) <->
                 exists f, missing_fraction raw c = Some f /\ (f < 1 # 2)%Q).
  { unfold clean, loc_columns. simpl columns. rewrite filter_In, lt_half_spec.
    destruct (isnull_mean c) as [p |], (missing_fraction raw c) as [q |];
      try contradiction.
    - split.
      + intros [_ [p' [E H]]]. injection E as <-. exists q. split; [reflexivity |].
        now rewrite <- Hm.
      + intros [q' [E H]]. injection E as <-. split; [assumption |].
        exists p. split; [reflexivity |]. now rewrite Hm.
    - split.
      + intros [_ [p [E _]]]. discriminate.
      + intros [q [E _]]. discriminate. }
  split; [exact Hiff |].
  intros f Hf Hge Hin. apply Hiff in Hin. destruct Hin as [f' [E Hlt]].
  rewrite Hf in E. injection E as <-. exact (Qlt_not_le _ _ Hlt Hge).
Qed.

Lemma clean_keeps_below_half_witness :
  (In street (columns (clean four_sales)) <->
     exists f, missing_fraction four_sales street = Some f /\ (f < 1 # 2)%Q)
  /\ (forall f, missing_fraction four_sales street = Some f -> (1 # 2 <= f)%Q ->
        ~ In street (columns (clean four_sales))).
Proof.
  apply (clean_keeps_below_half four_sales street).
  - reflexivity.
  - simpl. right. left. reflexivity.
Defined.

(** ** Classification and the feature lists *)

Lemma distinct_NoDup (l : list string) : distinct l = true <-> NoDup l.
Proof.
  induction l as [| x t IH]; simpl.
  - split; [constructor | reflexivity].
  - rewrite andb_true_iff, negb_true_iff, mem_false, IH. split.
    + intros [Hx Ht]. now constructor.
    + intros H. inversion H; subst. now split.
Qed.

Lemma NoDup_labels_filter (p : Series -> bool) (cs : list Series) :
  NoDup (map label cs) -> NoDup (map label (filter p cs)).
Proof.
  induction cs as [| c t IH]; simpl; intros H; [constructor |].
  inversion H as [| ? ? Hc Ht]; subst.
  destruct (p c); simpl; [| now apply IH].
  constructor; [| now apply IH].
  intros Hin. apply Hc. apply in_map_iff in Hin. destruct Hin as [c' [E Hc']].
  apply filter_In in Hc'. apply in_map_iff. exists c'. tauto.
Qed.

Lemma label_determines (cs : list Series) (a b : Series) :
  NoDup (map label cs) -> In a cs -> In b cs -> label a = label b -> a = b.
Proof.
  induction cs as [| c t IH]; simpl; intros H Ha Hb E; [contradiction |].
  inversion H as [| ? ? Hc Ht]; subst.
  destruct Ha as [-> | Ha], Hb as [-> | Hb].
  - reflexivity.
  - exfalso. apply Hc. rewrite E. now apply in_map.
  - exfalso. apply Hc. rewrite <- E. now apply in_map.
  - now apply IH.
Qed.

Lemma select_dtypes_In (p : dtype -> bool) (d : DataFrame) (s : string) :
  In s (select_dtypes p d) <->
  exists c, In c (columns d) /\ label c = s /\ p (kind c) = true.
Proof.
  unfold select_dtypes. rewrite in_map_iff. split.
  - intros [c [E H]]. apply filter_In in H. exists c. tauto.
  - intros [c [H [E Hp]]]. exists c. split; [assumption |].
    apply filter_In. tauto.
Qed.

Lemma select_dtypes_labels (p : dtype -> bool) (d : DataFrame) (s : string) :
  In s (select_dtypes p d) -> In s (labels d).
Proof.
  rewrite select_dtypes_In. intros [c [H [E _]]]. subst. now apply in_map.
Qed.

Lemma select_dtypes_NoDup (p : dtype -> bool) (d : DataFrame) :
  NoDup (labels d) -> NoDup (select_dtypes p d).
Proof. apply NoDup_labels_filter. Qed.

(** With labels renamed apart no label is both of a text column and of a
    numeric one. *)
Lemma object_not_number (d : DataFrame) (s : string) :
  NoDup (labels d) ->
  In s (select_dtypes is_object d) -> ~ In s (select_dtypes is_number d).
Proof.
  intros Hnd Ho Hn. apply select_dtypes_In in Ho. apply select_dtypes_In in Hn.
  destruct Ho as [a [Ha [Ea Hka]]], Hn as [b [Hb [Eb Hkb]]].
  assert (a = b)
    by (apply (label_determines (columns d)); [exact Hnd | assumption | assumption | congruence]).
  subst b. destruct (kind a); discriminate.
Qed.

Lemma remove_first_incl (x y : string) (l : list string) :
  In y (remove_first x l) -> In y l.
Proof.
  induction l as [| z t IH]; simpl; [tauto |].
  destruct (String.eqb x z); simpl; tauto.
Qed.

Lemma remove_first_NoDup (x : string) (l : list string) :
  NoDup l -> NoDup (remove_first x l) /\ ~ In x (remove_first x l).
Proof.
  induction l as [| z t IH]; simpl; intros H; [split; [constructor | tauto] |].
  inversion H as [| ? ? Hz Ht]; subst.
  destruct (String.eqb_spec x z) as [-> | Hne]; [tauto |].
  destruct (IH Ht) as [Hnd Hx]. split.
  - constructor; [| assumption]. intros Hin. apply Hz. eapply remove_first_incl, Hin.
  - simpl. intros [E | Hin]; [now subst | tauto].
Qed.

Lemma clean_unique (raw : DataFrame) :
  unique_labels raw = true -> NoDup (labels (clean raw)).
Proof.
  unfold unique_labels. rewrite distinct_NoDup. apply NoDup_labels_filter.
Qed.

Lemma startup_df (raw : DataFrame) : df (startup raw) = clean raw.
Proof. unfold startup. now destruct (classify (clean raw)). Qed.

Lemma startup_classify (raw : DataFrame) :
  (categorical_cols (startup raw), numerical_cols (startup raw)) = classify (clean raw).
Proof. unfold startup. now destruct (classify (clean raw)). Qed.

Lemma startup_comparison (raw : DataFrame) :
  numerical_features_for_comparison (startup raw)
  = drop_target (numerical_cols (startup raw)).
Proof. unfold startup. now destruct (classify (clean raw)). Qed.

Lemma startup_all_features (raw : DataFrame) :
  all_features (startup raw)
  = categorical_cols (startup raw) ++ numerical_features_for_comparison (startup raw).
Proof. unfold startup. now destruct (classify (clean raw)). Qed.

(** What the two lists of [classify] hold, over a table with labels renamed
    apart. *)
Lemma classify_facts (d : DataFrame) :
  NoDup (labels d) ->
  let '(categorical, numerical) := classify d in
  (forall s, In s categorical -> In s (labels d))
  /\ (forall s, In s numerical -> In s (select_dtypes is_number d))
  /\ NoDup categorical /\ NoDup numerical
  /\ (forall s, In s categorical -> ~ In s numerical)
  /\ (In "MSSubClass" (labels d) -> In "MSSubClass" categorical)
  /\ (~ In "MSSubClass" (labels d) ->
        categorical = select_dtypes is_object d
        /\ numerical = select_dtypes is_number d).
Proof.
  intros Hnd. unfold classify.
  pose proof (select_dtypes_NoDup is_object d Hnd) as Hndo.
  pose proof (select_dtypes_NoDup is_number d Hnd) as Hndn.
  destruct (mem "MSSubClass" (labels d)) eqn:Hl; simpl andb.
  - apply mem_In in Hl.
    destruct (mem "MSSubClass" (select_dtypes is_object d)) eqn:Ho; simpl negb.
    + apply mem_In in Ho. repeat split; try assumption; try tauto.
      * intros s. apply select_dtypes_labels.
      * intros s. now apply object_not_number.
    + apply mem_false in Ho.
      set (numerical := if mem "MSSubClass" (select_dtypes is_number d)
                        then remove_first "MSSubClass" (select_dtypes is_number d)
                        else select_dtypes is_number d).
      assert (Hsub : forall s, In s numerical -> In s (select_dtypes is_number d)).
      { intros s. unfold numerical.
        destruct (mem "MSSubClass" (select_dtypes is_number d)); [| tauto].
        apply remove_first_incl. }
      assert (Hnum : NoDup numerical /\ ~ In "MSSubClass" numerical).
      { unfold numerical.
        destruct (mem "MSSubClass" (select_dtypes is_number d)) eqn:Hn.
        - now apply remove_first_NoDup.
        - apply mem_false in Hn. tauto. }
      repeat split; try tauto.
      * intros s Hs. apply in_app_or in Hs. destruct Hs as [Hs | [<- | []]];
          [now apply select_dtypes_labels in Hs | assumption].
      * apply NoDup_app; [assumption | repeat constructor; simpl; tauto |].
        intros s Hs [<- | []]. tauto.
      * intros s Hs Hn. apply in_app_or in Hs. destruct Hs as [Hs | [<- | []]].
        -- apply (object_not_number d s Hnd Hs). now apply Hsub.
        -- tauto.
      * intros _. apply in_or_app. right. now left.
  - apply mem_false in Hl. repeat split; try assumption; try tauto.
    + intros s. apply select_dtypes_labels.
    + intros s. now apply object_not_number.
Qed.

(** C2. When [MSSubClass] is a column of the cleaned table, whatever its
    storage type, it ends in the categorical list and not in the numerical one;
    when it is not, the two lists are the plain [select_dtypes] lists. *)
Theorem MSSubClass_forced_categorical (raw : DataFrame) :
  unique_labels raw = true ->
  (In "MSSubClass" (labels (df (startup raw))) ->
     In "MSSubClass" (categorical_cols (startup raw))
     /\ ~ In "MSSubClass" (numerical_cols (startup raw)))
  /\ (~ In "MSSubClass" (labels (df (startup raw))) ->
        categorical_cols (startup raw) = select_dtypes is_object (df (startup raw))
        /\ numerical_cols (startup raw) = select_dtypes is_number (df (startup raw))).
Proof.
  intros Hu. pose proof (classify_facts (clean raw) (clean_unique raw Hu)) as H.
  rewrite <- startup_classify in H. rewrite startup_df.
  destruct H as (_ & _ & _ & _ & Hdisj & Hin & Hout).
  split; [| exact Hout].
  intros Hl. split; [now apply Hin |]. apply Hdisj. now apply Hin.
Qed.

Lemma MSSubClass_forced_categorical_witness :
  unique_labels four_sales = true
  /\ In "MSSubClass" (categorical_cols (startup four_sales))
  /\ ~ In "MSSubClass" (numerical_cols (startup four_sales)).
Proof.
  split; [reflexivity |].
  apply (MSSubClass_forced_categorical four_sales); [reflexivity |].
  simpl. tauto.
Defined.

Lemma drop_target_In (s : string) (l : list string) :
  In s (drop_target l) <-> In s l /\ s <> "SalePrice".
Proof.
  unfold drop_target. rewrite filter_In, negb_true_iff, String.eqb_neq. tauto.
Qed.

(** C3. The comparison list never holds [SalePrice]; [all_features] is the
    categorical list followed by the comparison list; the two share no label,
    and the concatenation repeats none. *)
Theorem all_features_disjoint_union (raw : DataFrame) :
  unique_labels raw = true ->
  ~ In "SalePrice" (numerical_features_for_comparison (startup raw))
  /\ all_features (startup raw)
     = categorical_cols (startup raw) ++ numerical_features_for_comparison (startup raw)
  /\ (forall s, In s (categorical_cols (startup raw)) ->
        ~ In s (numerical_features_for_comparison (startup raw)))
  /\ NoDup (all_features (startup raw)).
Proof.
  intros Hu. pose proof (classify_facts (clean raw) (clean_unique raw Hu)) as H.
  rewrite <- startup_classify in H.
  destruct H as (_ & _ & Hndc & Hndn & Hdisj & _ & _).
  rewrite startup_all_features, startup_comparison.
  assert (Hd : forall s, In s (categorical_cols (startup raw)) ->
                 ~ In s (drop_target (numerical_cols (startup raw)))).
  { intros s Hs Hn. apply drop_target_In in Hn. now apply (Hdisj s). }
  repeat split.
  - intros Hs. apply drop_target_In in Hs. tauto.
  - exact Hd.
  - apply NoDup_app; [assumption | now apply NoDup_filter | exact Hd].
Qed.

Lemma all_features_disjoint_union_witness :
  unique_labels four_sales = true
  /\ ~ In "SalePrice" (numerical_features_for_comparison (startup four_sales))
  /\ all_features (startup four_sales)
     = categorical_cols (startup four_sales)
       ++ numerical_features_for_comparison (startup four_sales)
  /\ (forall s, In s (categorical_cols (startup four_sales)) ->
        ~ In s (numerical_features_for_comparison (startup four_sales)))
  /\ NoDup (all_features (startup four_sales)).
Proof.
  split; [reflexivity |].
  apply (all_features_disjoint_union four_sales). reflexivity.
Defined.

(** ** Counting *)

Section TallyFacts.

Context {K : Type} (eqb : K -> K -> bool).
Hypothesis eqb_eq : forall a b, eqb a b = true <-> a = b.

Lemma key_eqb_refl (a : K) : eqb a a = true.
Proof. now apply eqb_eq. Qed.

Lemma key_eqb_false (a b : K) : eqb a b = false <-> a <> b.
Proof.
  rewrite <- eqb_eq. destruct (eqb a b); split; intros; try congruence; tauto.
Qed.

Lemma total_bump (k : K) (acc : list (K * nat)) :
  total (bump eqb k acc) = S (total acc).
Proof.
  induction acc as [| [k' n] t IH]; simpl; [reflexivity |].
  destruct (eqb k k'); simpl; [reflexivity |]. rewrite IH. lia.
Qed.

Lemma total_fold (l : list K) (acc : list (K * nat)) :
  total (fold_left (fun a k => bump eqb k a) l acc) = List.length l + total acc.
Proof.
  revert acc. induction l as [| k t IH]; intros acc; simpl; [reflexivity |].
  rewrite IH, total_bump. lia.
Qed.

(** Every row is counted once. *)
Lemma total_tally (l : list K) : total (tally eqb l) = List.length l.
Proof. unfold tally. rewrite total_fold. simpl. lia. Qed.

Lemma keys_bump (k k' : K) (acc : list (K * nat)) :
  In k' (map fst (bump eqb k acc)) <-> k' = k \/ In k' (map fst acc).
Proof.
  induction acc as [| [j n] t IH]; simpl; [intuition congruence |].
  destruct (eqb k j) eqn:E; simpl.
  - apply eqb_eq in E. subst. intuition congruence.
  - rewrite IH. intuition congruence.
Qed.

Lemma NoDup_bump (k : K) (acc : list (K * nat)) :
  NoDup (map fst acc) -> NoDup (map fst (bump eqb k acc)).
Proof.
  induction acc as [| [j n] t IH]; simpl; intros H.
  - repeat constructor. simpl. tauto.
  - inversion H as [| ? ? Hj Ht]; subst.
    destruct (eqb k j) eqn:E; simpl; [now constructor |].
    constructor; [| now apply IH].
    rewrite keys_bump. apply key_eqb_false in E. intros [Hjk | Hin]; [congruence | tauto].
Qed.

Lemma counter_bump (k k' : K) (acc : list (K * nat)) :
  counter eqb k' (bump eqb k acc)
  = counter eqb k' acc + (if eqb k' k then 1 else 0).
Proof.
  induction acc as [| [j n] t IH]; simpl.
  - destruct (eqb k' k); reflexivity.
  - destruct (eqb k j) eqn:E; simpl.
    + apply eqb_eq in E. subst j. destruct (eqb k' k); lia.
    + destruct (eqb k' j) eqn:E'; [| exact IH].
      apply eqb_eq in E'. subst j.
      assert (Hne : eqb k' k = false).
      { apply key_eqb_false. apply key_eqb_false in E. congruence. }
      rewrite Hne. lia.
Qed.

Lemma positive_bump (k : K) (acc : list (K * nat)) :
  Forall (fun b => 0 < snd b) acc -> Forall (fun b => 0 < snd b) (bump eqb k acc).
Proof.
  induction acc as [| [j n] t IH]; simpl; intros H.
  - repeat constructor.
  - inversion H; subst. destruct (eqb k j); constructor; simpl in *; auto; lia.
Qed.

Lemma counter_In (k : K) (n : nat) (acc : list (K * nat)) :
  NoDup (map fst acc) -> In (k, n) acc -> counter eqb k acc = n.
Proof.
  induction acc as [| [j m] t IH]; simpl; intros H Hin; [contradiction |].
  inversion H as [| ? ? Hj Ht]; subst. destruct Hin as [E | Hin].
  - injection E as -> ->. now rewrite key_eqb_refl.
  - destruct (eqb k j) eqn:E; [| now apply IH].
    apply eqb_eq in E. subst j. exfalso. apply Hj.
    change k with (fst (k, n)). now apply in_map.
Qed.

Lemma occurrences_snoc (k k' : K) (l : list K) :
  occurrences eqb k' (l ++ [k])
  = occurrences eqb k' l + (if eqb k' k then 1 else 0).
Proof.
  unfold occurrences. rewrite filter_app, length_app. simpl.
  destruct (eqb k' k); reflexivity.
Qed.

Lemma counts_of_fold (l seen : list K) (acc : list (K * nat)) :
  counts_of eqb acc seen ->
  counts_of eqb (fold_left (fun a k => bump eqb k a) l acc) (seen ++ l).
Proof.
  revert seen acc. induction l as [| k t IH]; intros seen acc H; simpl.
  - now rewrite app_nil_r.
  - replace (seen ++ k :: t) with ((seen ++ [k]) ++ t)
      by (rewrite <- app_assoc; reflexivity).
    apply IH. destruct H as (Hnd & Hpos & Hkeys & Hcnt). repeat split.
    + now apply NoDup_bump.
    + now apply positive_bump.
    + rewrite keys_bump, in_app_iff, Hkeys. simpl. intuition congruence.
    + rewrite keys_bump, in_app_iff, Hkeys. simpl. intuition congruence.
    + intros k'. now rewrite counter_bump, occurrences_snoc, Hcnt.
Qed.

Lemma counts_of_tally (l : list K) : counts_of eqb (tally eqb l) l.
Proof.
  apply (counts_of_fold l [] []). repeat split; simpl; try tauto; constructor.
Qed.

(** A bucket of the tally pairs a key of the list with its number of
    occurrences, and every key of the list has its bucket. *)
Lemma tally_In (l : list K) (k : K) (n : nat) :
  In (k, n) (tally eqb l) <-> In k l /\ n = occurrences eqb k l.
Proof.
  destruct (counts_of_tally l) as (Hnd & _ & Hkeys & Hcnt). split.
  - intros H. split.
    + apply Hkeys. change k with (fst (k, n)). now apply in_map.
    + rewrite <- Hcnt. symmetry. now apply counter_In.
  - intros [Hk ->]. apply Hkeys in Hk. apply in_map_iff in Hk.
    destruct Hk as [[k' m] [E Hin]]. simpl in E. subst k'.
    rewrite <- Hcnt, (counter_In k m _ Hnd Hin). exact Hin.
Qed.

Lemma tally_NoDup (l : list K) : NoDup (map fst (tally eqb l)).
Proof. apply counts_of_tally. Qed.

End TallyFacts.

Section SortFacts.

Context {A : Type} (leb : A -> A -> bool).

Lemma insert_sorted_perm (a : A) (l : list A) :
  Permutation (insert_sorted leb a l) (a :: l).
Proof.
  induction l as [| b t IH]; simpl; [reflexivity |].
  destruct (leb a b); [reflexivity |].
  rewrite IH. apply perm_swap.
Qed.

Lemma sort_by_perm (l : list A) : Permutation (sort_by leb l) l.
Proof.
  induction l as [| a t IH]; simpl; [reflexivity |].
  rewrite insert_sorted_perm. now constructor.
Qed.

Hypothesis leb_total : forall a b, leb a b = false -> leb b a = true.



End SortFacts.

Lemma total_perm {K : Type} (a b : list (K * nat)) :
  Permutation a b -> total a = total b.
Proof.
  induction 1; simpl; lia.
Qed.

(** ** Looking columns up *)

Lemma scalar_eqb_eq (a b : scalar) : scalar_eqb a b = true <-> a = b.
Proof.
  destruct a as [s | m | p], b as [t | n | q]; simpl;
    try (split; [discriminate | intros H; discriminate H]).
  - rewrite String.eqb_eq. split; congruence.
  - rewrite Z.eqb_eq. split; congruence.
  - rewrite Bool.eqb_true_iff. split; congruence.
Qed.

Lemma key2_eqb_eq (a b : key2) : key2_eqb a b = true <-> a = b.
Proof.
  destruct a as [a1 a2], b as [b1 b2]. unfold key2_eqb. simpl.
  rewrite andb_true_iff, !scalar_eqb_eq. split.
  - intros [-> ->]. reflexivity.
  - intros E. injection E as -> ->. now split.
Qed.

Lemma getitem_present (d : DataFrame) (col : string) :
  In col (labels d) ->
  exists c, getitem d col = Ok c /\ In c (columns d) /\ label c = col.
Proof.
  unfold getitem, labels. intros H.
  destruct (find (fun c => String.eqb (label c) col) (columns d)) as [c |] eqn:F.
  - apply find_some in F. destruct F as [Hin E]. apply String.eqb_eq in E.
    exists c. tauto.
  - exfalso. apply in_map_iff in H. destruct H as [c [E Hin]].
    pose proof (find_none _ _ F c Hin) as N. simpl in N.
    rewrite E, String.eqb_refl in N. discriminate.
Qed.

Lemma getitem_label (d : DataFrame) (col : string) (c : Series) :
  getitem d col = Ok c -> label c = col.
Proof.
  unfold getitem.
  destruct (find (fun c => String.eqb (label c) col) (columns d)) as [c' |] eqn:F;
    [| discriminate].
  intros E. injection E as <-. apply find_some in F. now apply String.eqb_eq.
Qed.



Lemma px_column_absent (d : DataFrame) (arg col : string) :
  ~ In col (labels d) ->
  exists e, px_column d arg col = Raise e /\ exn_class e = "ValueError".
Proof.
  intros H. unfold px_column.
  destruct (filter (fun c => String.eqb (label c) col) (columns d)) as [| c t] eqn:F.
  - eexists. split; reflexivity.
  - exfalso. apply H. assert (Hc : In c (c :: t)) by now left.
    rewrite <- F in Hc. apply filter_In in Hc. destruct Hc as [Hin E].
    apply String.eqb_eq in E. subst. now apply in_map.
Qed.

(** Every label of the categorical list is a label of the cleaned table. *)
Lemma categorical_in_table (raw : DataFrame) (s : string) :
  In s (categorical_cols (startup raw)) -> In s (labels (df (startup raw))).
Proof.
  rewrite startup_df.
  assert (E : categorical_cols (startup raw) = fst (classify (clean raw)))
    by now rewrite <- startup_classify.
  rewrite E. unfold classify.
  destruct (mem "MSSubClass" (labels (clean raw))) eqn:M; simpl andb.
  - destruct (negb (mem "MSSubClass" (select_dtypes is_object (clean raw)))); simpl.
    + intros H. apply in_app_or in H. destruct H as [H | [<- | []]].
      * now apply select_dtypes_labels in H.
      * now apply mem_In.
    + apply select_dtypes_labels.
  - simpl. apply select_dtypes_labels.
Qed.

(** ** The count plot *)

Lemma eqb_false_sym (a b : string) : a <> b -> String.eqb b a = false.
Proof. intros H. apply String.eqb_neq. congruence. Qed.

(** The figure the count callback returns for a column of the table whose
    label is not one of the two labels the counts go under on the way. *)
Lemma count_plot_figure (g : Globals) (col : string) (c : Series) :
  getitem (df g) col = Ok c -> col <> "Count" -> col <> "count" ->
  update_categorical_count_plot g col
  = Ok (mkFigure bar
          (map (fun b => Some (fst b)) (entries (value_counts c)))
          (Some (map (fun b => Some (Num (Z.of_nat (snd b)))) (entries (value_counts c))))
          None None None ("Count of Properties by " ++ col) col "Count").
Proof.
  intros G H1 H2. unfold update_categorical_count_plot. rewrite G.
  pose proof (getitem_label _ _ _ G) as L.
  assert (R : reset_index1 (value_counts c)
              = Ok (mkFrame (List.length (entries (value_counts c)))
                      [key_column col (map fst (entries (value_counts c)));
                       count_column "count" (entries (value_counts c))])).
  { unfold reset_index1, insert_front, value_counts.
    cbn -[String.eqb String.append sort_by]. rewrite L.
    rewrite (proj2 (String.eqb_neq col "count") H2). reflexivity. }
  cbn [bind]. rewrite R. cbn [bind].
  generalize (entries (value_counts c)). intros E.
  unfold set_columns2, px_bar, px_column, px_optional, update_layout.
  cbn -[String.eqb String.append].
  rewrite String.eqb_refl, (eqb_false_sym _ _ H1).
  cbn -[String.eqb String.append].
  rewrite (proj2 (String.eqb_neq col "Count") H1).
  cbn -[String.eqb String.append].
  rewrite !map_map. reflexivity.
Qed.

Lemma buckets_of_counts {K : Type} (f : K -> cell) (E : list (K * nat))
    (m : mark) (col : option (list cell)) (t a b : string) :
  buckets (mkFigure m (map (fun e => f (fst e)) E)
             (Some (map (fun e => Some (Num (Z.of_nat (snd e)))) E))
             col None None t a b)
  = map (fun e => (f (fst e), snd e)) E.
Proof.
  unfold buckets. cbn [fig_x fig_y].
  induction E as [| e E IH]; simpl; [reflexivity |].
  rewrite IH. unfold height. now rewrite Nat2Z.id.
Qed.

Lemma total_map_key {K L : Type} (f : K -> L) (E : list (K * nat)) :
  total (map (fun e => (f (fst e), snd e)) E) = total E.
Proof.
  induction E as [| e E IH]; simpl; [reflexivity |]. now rewrite IH.
Qed.














(** ** The comparison plot *)

(** The figure the comparison callback returns on its categorical branch for
    two different columns of the table, neither labelled as the count column. *)
Lemma compare_bar_figure (g : Globals) (a b : string) (c1 c2 : Series) :
  getitem (df g) a = Ok c1 -> getitem (df g) b = Ok c2 ->
  mem b (categorical_cols g) = true ->
  a <> b -> a <> "Count" -> b <> "Count" ->
  update_comparison_plot g a b
  = Ok (mkFigure bar
          (map (fun e => Some (fst (fst e))) (group_sizes c1 c2))
          (Some (map (fun e => Some (Num (Z.of_nat (snd e)))) (group_sizes c1 c2)))
          (Some (map (fun e => Some (snd (fst e))) (group_sizes c1 c2)))
          None None ("Count of " ++ a ++ " by " ++ b) a b).
Proof.
  intros G1 G2 M Hab Ha Hb. unfold update_comparison_plot, groupby_size.
  rewrite M, G1, G2. cbn [bind]. fold (group_sizes c1 c2).
  generalize (group_sizes c1 c2). intros E.
  pose proof (proj2 (String.eqb_neq a b) Hab) as F1.
  pose proof (eqb_false_sym _ _ Hab) as F2.
  pose proof (proj2 (String.eqb_neq a "Count") Ha) as F3.
  pose proof (eqb_false_sym _ _ Ha) as F4.
  pose proof (proj2 (String.eqb_neq b "Count") Hb) as F5.
  pose proof (eqb_false_sym _ _ Hb) as F6.
  unfold reset_index2, insert_front, px_bar, px_column, px_optional, update_layout.
  repeat (cbn -[String.eqb String.append]; unfold px_column;
          rewrite ?String.eqb_refl, ?F1, ?F2, ?F3, ?F4, ?F5, ?F6).
  rewrite !map_map. reflexivity.
Qed.

(** C4. The comparison callback does not return a bar chart for every
    categorical comparison column: when the same categorical column is chosen
    in both dropdowns, [reset_index] refuses to insert the second level under
    the label of the first and the callback raises [ValueError]. *)
Theorem compare_same_column_raises (raw : DataFrame) (col : string) :
  In col (categorical_cols (startup raw)) ->
  exists e,
    update_comparison_plot (startup raw) col col = Raise e
    /\ exn_class e = "ValueError".
Proof.
  intros Hcat.
  destruct (getitem_present _ _ (categorical_in_table raw col Hcat)) as [c [G _]].
  unfold update_comparison_plot, groupby_size.
  rewrite (proj2 (mem_In _ _) Hcat), G. cbn [bind].
  unfold reset_index2, insert_front. cbn -[String.eqb String.append].
  destruct (String.eqb col "Count") eqn:E; cbn -[String.eqb String.append].
  - eexists. split; reflexivity.
  - rewrite String.eqb_refl. cbn -[String.eqb String.append].
    eexists. split; reflexivity.
Qed.

Lemma compare_same_column_raises_witness :
  In "Neighborhood" (categorical_cols (startup four_sales))
  /\ exists e,
       update_comparison_plot (startup four_sales) "Neighborhood" "Neighborhood" = Raise e
       /\ exn_class e = "ValueError".
Proof.
  assert (H : In "Neighborhood" (categorical_cols (startup four_sales)))
    by (vm_compute; left; reflexivity).
  split; [exact H |].
  exact (compare_same_column_raises four_sales "Neighborhood" H).
Defined.

(** On its other branch the callback hands the two columns to the box plot as
    they are. *)
Lemma compare_box_figure (g : Globals) (a b : string) (xs ys : list cell) :
  mem b (categorical_cols g) = false ->
  px_column (df g) "x" a = Ok xs -> px_column (df g) "y" b = Ok ys ->
  update_comparison_plot g a b
  = Ok (mkFigure box xs (Some ys) None None None
          (b ++ " Distribution by " ++ a) a b).
Proof.
  intros M X Y. unfold update_comparison_plot, px_box. rewrite M, X, Y. reflexivity.
Qed.

Lemma dropna2_length (l1 l2 : list cell) :
  List.length (dropna2 l1 l2)
  = List.length (filter (fun r => negb (isnull (fst r)) && negb (isnull (snd r)))
                        (combine l1 l2)).
Proof.
  revert l2. induction l1 as [| x t IH]; intros [| y u]; simpl; try reflexivity.
  - now destruct x.
  - destruct x, y; simpl; now rewrite IH.
Qed.

Lemma complete_rows (l1 l2 : list cell) :
  forallb (fun x => negb (isnull x)) l1 = true ->
  forallb (fun x => negb (isnull x)) l2 = true ->
  List.length l1 = List.length l2 ->
  List.length (filter (fun r => negb (isnull (fst r)) && negb (isnull (snd r)))
                      (combine l1 l2)) = List.length l1.
Proof.
  revert l2. induction l1 as [| x t IH]; intros [| y u]; simpl;
    try reflexivity; try discriminate.
  rewrite !andb_true_iff. intros [Hx Ht] [Hy Hu] L. rewrite Hx, Hy. simpl.
  rewrite IH; auto.
Qed.

Lemma compare_counts_miss_rows :
  In "Neighborhood" (categorical_cols (startup four_sales))
  /\ In "Street" (categorical_cols (startup four_sales))
  /\ ~ (exists fig,
          update_comparison_plot (startup four_sales) "Neighborhood" "Street" = Ok fig
          /\ total (buckets fig) = nrows (df (startup four_sales))).
Proof.
  split; [vm_compute; tauto |]. split; [vm_compute; tauto |].
  intros [fig [E H]]. vm_compute in E. injection E as <-.
  vm_compute in H. discriminate.
Qed.

(** C5, amended. For two different categorical columns, neither labelled
    [Count], the comparison callback returns a bar chart whose counts sum to
    the number of rows in which neither column is missing; that is the row
    count when both columns are complete. *)
Theorem compare_counts_rows_with_both (raw : DataFrame) (cat1 cat2 : string) :
  In cat1 (categorical_cols (startup raw)) ->
  In cat2 (categorical_cols (startup raw)) ->
  cat1 <> cat2 -> cat1 <> "Count" -> cat2 <> "Count" ->
  exists c1 c2 fig,
    getitem (df (startup raw)) cat1 = Ok c1
    /\ getitem (df (startup raw)) cat2 = Ok c2
    /\ update_comparison_plot (startup raw) cat1 cat2 = Ok fig
    /\ fig_mark fig = bar
    /\ total (buckets fig) = rows_with_both c1 c2
    /\ (rectangular raw = true -> complete c1 = true -> complete c2 = true ->
        total (buckets fig) = nrows (df (startup raw))).
Proof.
  intros H1 H2 Hne Hc1 Hc2.
  destruct (getitem_present _ _ (categorical_in_table raw cat1 H1)) as [c1 [G1 [I1 _]]].
  destruct (getitem_present _ _ (categorical_in_table raw cat2 H2)) as [c2 [G2 [I2 _]]].
  pose proof (compare_bar_figure _ _ _ c1 c2 G1 G2 (proj2 (mem_In _ _) H2) Hne Hc1 Hc2)
    as F.
  match type of F with _ = Ok ?f => set (fig := f) in * end.
  assert (B : buckets fig
              = map (fun e => ((fun k : key2 => Some (fst k)) (fst e), snd e))
                    (group_sizes c1 c2))
    by apply (buckets_of_counts (fun k : key2 => Some (fst k))).
  exists c1, c2, fig.
  split; [exact G1 |]. split; [exact G2 |]. split; [exact F |].
  split; [reflexivity |]. rewrite B. clear B.
  rewrite (total_map_key (fun k : key2 => Some (fst k))).
  assert (T : total (group_sizes c1 c2) = rows_with_both c1 c2).
  { unfold group_sizes, rows_with_both.
    rewrite (total_perm _ _ (sort_by_perm _ _)), total_tally. apply dropna2_length. }
  split; [exact T |].
  intros Hrect Hk1 Hk2. rewrite T. unfold rows_with_both.
  rewrite startup_df in *. unfold clean, loc_columns in *. simpl in I1, I2 |- *.
  apply filter_In in I1. apply filter_In in I2.
  pose proof (rectangular_length raw c1 Hrect (proj1 I1)) as L1.
  pose proof (rectangular_length raw c2 Hrect (proj1 I2)) as L2.
  rewrite complete_rows; auto. congruence.
Qed.

Lemma compare_counts_rows_with_both_witness :
  exists c1 c2 fig,
    getitem (df (startup four_sales)) "Neighborhood" = Ok c1
    /\ getitem (df (startup four_sales)) "Street" = Ok c2
    /\ update_comparison_plot (startup four_sales) "Neighborhood" "Street" = Ok fig
    /\ fig_mark fig = bar
    /\ total (buckets fig) = rows_with_both c1 c2
    /\ (rectangular four_sales = true -> complete c1 = true -> complete c2 = true ->
        total (buckets fig) = nrows (df (startup four_sales))).
Proof.
  apply (compare_counts_rows_with_both four_sales "Neighborhood" "Street").
  - vm_compute. tauto.
  - vm_compute. tauto.
  - discriminate.
  - discriminate.
  - discriminate.
Defined.

(** ** The histogram *)

(** What the histogram callback asks of plotly: a histogram of the
    [SalePrice] cells with a request of 50 bins and a box plot in the margin.
    The bins themselves are cut by the renderer. *)
Lemma histogram_request (g : Globals) (arg : string) (xs : list cell) :
  px_column (df g) "x" "SalePrice" = Ok xs ->
  update_sale_price_histogram g arg
  = Ok (mkFigure histogram xs None None (Some 50) (Some box)
          "Distribution of Sale Price" "Sale Price" "Count").
Proof.
  intros X. unfold update_sale_price_histogram, px_histogram. now rewrite X.
Qed.

Lemma px_column_sale_price (d1 d2 : DataFrame) (arg : string) :
  sale_price_columns d1 = sale_price_columns d2 ->
  px_column d1 arg "SalePrice" = px_column d2 arg "SalePrice".
Proof.
  unfold sale_price_columns, px_column. now intros ->.
Qed.

(** C8. The histogram is the same chart under any two selection states: what
    Dash renders for it is fixed by the [SalePrice] column of the table and by
    nothing the dropdowns hold. *)
Theorem histogram_ignores_selection (g1 g2 : Globals) (s1 s2 : Selection) :
  sale_price_columns (df g1) = sale_price_columns (df g2) ->
  render g1 s1 sale_price_histogram = render g2 s2 sale_price_histogram.
Proof.
  intros H. unfold render. cbn [inputs gather input_value handler].
  change (String.eqb "id" "id") with true. cbv iota.
  unfold update_sale_price_histogram, px_histogram.
  now rewrite (px_column_sale_price _ _ "x" H).
Qed.

Lemma histogram_ignores_selection_witness :
  sale_price_columns (df (startup four_sales)) = sale_price_columns (df (startup prices_only))
  /\ render (startup four_sales)
            (mkSelection "Neighborhood" "SalePrice" "GrLivArea" "SalePrice")
            sale_price_histogram
     = render (startup prices_only)
              (mkSelection "Street" "MSSubClass" "MSSubClass" "GrLivArea")
              sale_price_histogram.
Proof.
  split; [reflexivity |].
  apply (histogram_ignores_selection (startup four_sales) (startup prices_only)).
  reflexivity.
Defined.

(** ** Selections that name no column *)


(** ** More on the cleaning step *)

Lemma filter_twice {A : Type} (f : A -> bool) (l : list A) :
  filter f (filter f l) = filter f l.
Proof.
  induction l as [| a t IH]; simpl; [reflexivity |].
  destruct (f a) eqn:E; simpl; [rewrite E, IH |]; auto.
Qed.

(** Cleaning a cleaned table changes nothing: the mask of a column depends on
    the column alone. *)
Theorem clean_idempotent (raw : DataFrame) : clean (clean raw) = clean raw.
Proof.
  unfold clean, loc_columns. simpl. now rewrite filter_twice.
Qed.

(** Cleaning keeps the row index, the one-cell-per-row shape and the
    distinctness of the labels, and takes the columns it keeps in their
    order. *)
Theorem clean_keeps_shape (raw : DataFrame) :
  rectangular raw = true ->
  unique_labels raw = true ->
  nrows (clean raw) = nrows raw
  /\ rectangular (clean raw) = true
  /\ unique_labels (clean raw) = true
  /\ (forall c, In c (columns (clean raw)) -> In c (columns raw)).
Proof.
  intros Hr Hu. split; [reflexivity |]. split; [| split].
  - unfold rectangular in *. rewrite forallb_forall in *. intros c Hc.
    apply Hr. unfold clean, loc_columns in Hc. simpl in Hc.
    now apply filter_In in Hc.
  - apply distinct_NoDup. now apply clean_unique.
  - intros c Hc. unfold clean, loc_columns in Hc. simpl in Hc.
    now apply filter_In in Hc.
Qed.

Lemma clean_keeps_shape_witness :
  nrows (clean four_sales) = nrows four_sales
  /\ rectangular (clean four_sales) = true
  /\ unique_labels (clean four_sales) = true
  /\ (forall c, In c (columns (clean four_sales)) -> In c (columns four_sales)).
Proof.
  apply (clean_keeps_shape four_sales); reflexivity.
Defined.

Lemma classify_no_columns (d : DataFrame) :
  columns d = [] -> classify d = ([], []).
Proof.
  intros E. unfold classify, select_dtypes, labels. rewrite E. reflexivity.
Qed.

(** A table without rows loses every column: the mean over no row is NaN and
    NaN is not below one half.  No feature is left to offer. *)
Theorem clean_no_rows (raw : DataFrame) :
  rectangular raw = true ->
  nrows raw = 0 ->
  columns (df (startup raw)) = []
  /\ categorical_cols (startup raw) = []
  /\ numerical_cols (startup raw) = []
  /\ all_features (startup raw) = [].
Proof.
  intros Hr Hn.
  assert (E : columns (clean raw) = []).
  { unfold clean, loc_columns. simpl.
    assert (H : forall c, In c (columns raw) -> lt_half (isnull_mean c) = false).
    { intros c Hc. pose proof (rectangular_length raw c Hr Hc) as L.
      rewrite Hn in L. apply length_zero_iff_nil in L.
      unfold isnull_mean. now rewrite L. }
    induction (columns raw) as [| c t IH]; simpl; [reflexivity |].
    rewrite (H c) by now left. apply IH. intros c' Hc'. apply H. now right. }
  pose proof (startup_classify raw) as C.
  rewrite (classify_no_columns _ E) in C. injection C as Hc Hm.
  rewrite startup_df, startup_all_features, startup_comparison, Hc, Hm.
  now rewrite E.
Qed.

Lemma clean_no_rows_witness :
  columns (df (startup header_only)) = []
  /\ categorical_cols (startup header_only) = []
  /\ numerical_cols (startup header_only) = []
  /\ all_features (startup header_only) = [].
Proof.
  apply (clean_no_rows header_only); reflexivity.
Defined.

(** ** More on the classification *)

Lemma remove_first_In (x y : string) (l : list string) :
  NoDup l -> (In y (remove_first x l) <-> In y l /\ y <> x).
Proof.
  induction l as [| z t IH]; simpl; intros H; [tauto |].
  inversion H as [| ? ? Hz Ht]; subst.
  destruct (String.eqb_spec x z) as [-> | Hne].
  - split.
    + intros Hy. split; [now right |]. intros ->. contradiction.
    + intros [[-> | Hy] Hn]; [contradiction | assumption].
  - simpl. rewrite (IH Ht). split.
    + intros [-> | [Hy Hn]]; [split; [now left | congruence] | tauto].
    + intros [[-> | Hy] Hn]; [now left | tauto].
Qed.

Lemma classify_lists (d : DataFrame) (s : string) :
  NoDup (labels d) ->
  (In s (fst (classify d)) <->
     In s (select_dtypes is_object d) \/ (s = "MSSubClass" /\ In s (labels d)))
  /\ (In s (snd (classify d)) <->
        In s (select_dtypes is_number d) /\ s <> "MSSubClass").
Proof.
  intros Hnd. unfold classify.
  pose proof (select_dtypes_NoDup is_number d Hnd) as Hndn.
  destruct (mem "MSSubClass" (labels d)) eqn:Hl; simpl andb.
  - apply mem_In in Hl.
    destruct (mem "MSSubClass" (select_dtypes is_object d)) eqn:Ho; simpl negb;
      cbn [fst snd].
    + apply mem_In in Ho. split.
      * split; [tauto | intros [H | [-> _]]; assumption].
      * split; [| tauto]. intros H. split; [assumption |]. intros ->.
        exact (object_not_number d _ Hnd Ho H).
    + split.
      * rewrite in_app_iff. simpl. split.
        -- intros [H | [<- | []]]; tauto.
        -- intros [H | [-> _]]; tauto.
      * destruct (mem "MSSubClass" (select_dtypes is_number d)) eqn:Hn.
        -- now apply remove_first_In.
        -- apply mem_false in Hn. split; [| tauto].
           intros H. split; [assumption |]. intros ->. contradiction.
  - apply mem_false in Hl. cbn [fst snd]. split.
    + split; [tauto | intros [H | [-> H]]; [assumption | contradiction]].
    + split; [| tauto]. intros H. split; [assumption |]. intros ->.
      apply Hl. now apply select_dtypes_labels in H.
Qed.

(** Which labels end in which list: the categorical list holds the labels of
    the text columns and [MSSubClass] when the table has it; the numerical
    list holds the labels of the numeric columns but [MSSubClass].  A column of
    truth values is in neither, unless it is [MSSubClass]. *)
Theorem classification_characterised (raw : DataFrame) (s : string) :
  unique_labels raw = true ->
  (In s (categorical_cols (startup raw)) <->
     exists c, In c (columns (df (startup raw))) /\ label c = s
               /\ (kind c = object \/ s = "MSSubClass"))
  /\ (In s (numerical_cols (startup raw)) <->
        exists c, In c (columns (df (startup raw))) /\ label c = s
                  /\ (kind c = int64 \/ kind c = float64) /\ s <> "MSSubClass").
Proof.
  intros Hu. pose proof (classify_lists (clean raw) s (clean_unique raw Hu)) as [Hc Hn].
  rewrite <- startup_classify in Hc, Hn. cbn [fst snd] in Hc, Hn.
  rewrite startup_df. rewrite Hc, Hn, !select_dtypes_In. split.
  - split.
    + intros [[c [H [E K]]] | [E H]].
      * exists c. repeat split; try assumption. left. now destruct (kind c).
      * apply in_map_iff in H. destruct H as [c [L H]]. exists c. tauto.
    + intros [c [H [E [K | M]]]].
      * left. exists c. rewrite K. tauto.
      * right. split; [assumption |]. subst s. now apply in_map.
  - split.
    + intros [[c [H [E K]]] M]. exists c. repeat split; try assumption.
      destruct (kind c); try discriminate; tauto.
    + intros [c [H [E [K M]]]]. split; [| assumption]. exists c.
      repeat split; try assumption. destruct K as [-> | ->]; reflexivity.
Qed.

Lemma classification_characterised_witness :
  In "MSSubClass" (categorical_cols (startup four_sales)) <->
  exists c, In c (columns (df (startup four_sales))) /\ label c = "MSSubClass"
            /\ (kind c = object \/ "MSSubClass" = "MSSubClass").
Proof.
  exact (proj1 (classification_characterised four_sales "MSSubClass" eq_refl)).
Defined.

(** ** The page *)

Lemma options_values (l : list string) : map snd (options_of l) = l.
Proof.
  unfold options_of. rewrite map_map. simpl. apply map_id.
Qed.

Lemma numerical_in_table (raw : DataFrame) (s : string) :
  In s (numerical_cols (startup raw)) -> In s (labels (df (startup raw))).
Proof.
  rewrite startup_df.
  assert (E : numerical_cols (startup raw) = snd (classify (clean raw)))
    by now rewrite <- startup_classify.
  rewrite E. unfold classify.
  destruct (mem "MSSubClass" (labels (clean raw))
            && negb (mem "MSSubClass" (select_dtypes is_object (clean raw))));
    cbn [snd]; [| apply select_dtypes_labels].
  destruct (mem "MSSubClass" (select_dtypes is_number (clean raw)));
    intros H; [apply remove_first_incl in H |]; now apply select_dtypes_labels in H.
Qed.

Lemma features_in_table (raw : DataFrame) (s : string) :
  In s (all_features (startup raw)) -> In s (labels (df (startup raw))).
Proof.
  rewrite startup_all_features, startup_comparison, in_app_iff, drop_target_In.
  intros [H | [H _]]; [now apply categorical_in_table | now apply numerical_in_table].
Qed.

(** The tabs the page shows are the tab ids the tab callback has a page for;
    for any other id the callback returns nothing. *)
Theorem tabs_have_pages (g : Globals) (tab : string) :
  In tab (tab_ids app_layout) <-> exists page, render_tab_content g tab = Some page.
Proof.
  unfold render_tab_content. cbn [tab_ids app_layout flat_map app]. simpl In. split.
  - intros [<- | [<- | []]]; cbn; eexists; reflexivity.
  - destruct (String.eqb_spec tab "tab-categorical") as [-> | _]; [tauto |].
    destruct (String.eqb_spec tab "tab-numerical") as [-> | _]; [tauto |].
    intros [page E]. discriminate.
Qed.

(** Every [Input] of a callback names a component of the page that holds the
    callback's graph: no callback of a shown graph waits for a component of
    the other tab. *)
Theorem inputs_on_the_same_page (g : Globals) (tab : string) (page : component)
    (o : graph) (c p : string) :
  render_tab_content g tab = Some page ->
  In (output_id o) (ids page) ->
  In (c, p) (inputs o) ->
  In c (ids page).
Proof.
  unfold render_tab_content.
  destruct (String.eqb tab "tab-categorical");
    [| destruct (String.eqb tab "tab-numerical"); [| discriminate]];
    intros E; injection E as <-; cbn [ids flat_map app];
    destruct o; simpl; intros Ho Hi;
    repeat match goal with
           | H : _ \/ _ |- _ => destruct H
           | H : False |- _ => contradiction
           | H : (_, _) = (_, _) |- _ => injection H as <- <-
           | H : _ = _ :> string |- _ => discriminate H
           end; tauto.
Qed.

Lemma inputs_on_the_same_page_witness :
  In "x-axis-dropdown"
     (ids (Container
       [ Row [ Col [ Label "Select X-axis Variable:";
                     Dropdown "x-axis-dropdown"
                       (options_of (numerical_features_for_comparison (startup four_sales)))
                       "GrLivArea" false ] 6;
               Col [ Label "Select Y-axis Variable:";
                     Dropdown "y-axis-dropdown"
                       (options_of (numerical_features_for_comparison (startup four_sales)
                                    ++ ["SalePrice"]))
                       "SalePrice" false ] 6 ] "mb-4";
         Row [ Col [Graph "scatter-plot"] 12 ] "";
         Row [ Col [H2 "Distribution of Sale Price" "text-center mt-4 mb-3"] 12 ] "";
         Row [ Col [Graph "sale-price-histogram"] 12 ] "" ])).
Proof.
  apply (inputs_on_the_same_page (startup four_sales) "tab-numerical" _
           scatter_plot "x-axis-dropdown" "value").
  - reflexivity.
  - simpl. tauto.
  - simpl. tauto.
Defined.

(** When the cleaned table has a [SalePrice] column, every value a dropdown of
    either page offers is the label of a column of the cleaned table. *)
Theorem offered_are_columns (raw : DataFrame) (tab : string) (page : component)
    (s : string) :
  render_tab_content (startup raw) tab = Some page ->
  In "SalePrice" (labels (df (startup raw))) ->
  In s (offered page) ->
  In s (labels (df (startup raw))).
Proof.
  unfold render_tab_content. intros E Hsp.
  destruct (String.eqb tab "tab-categorical");
    [| destruct (String.eqb tab "tab-numerical"); [| discriminate]];
    injection E as <-; unfold offered; cbn [dropdowns flat_map app fst snd];
    rewrite !options_values, !app_nil_r, !in_app_iff; simpl In.
  - intros [H | [H | [<- | []]]];
      [now apply categorical_in_table | now apply features_in_table | assumption].
  - rewrite startup_comparison, !drop_target_In.
    intros [[H _] | [[H _] | [<- | []]]];
      [now apply numerical_in_table | now apply numerical_in_table | assumption].
Qed.

Lemma offered_are_columns_witness :
  In "GrLivArea" (labels (df (startup four_sales))).
Proof.
  apply (offered_are_columns four_sales "tab-categorical"
           (Container
             [ Row [ Col [ Label "Select Categorical Variable:";
                           Dropdown "categorical-dropdown"
                             (options_of (categorical_cols (startup four_sales)))
                             "Neighborhood" false ] 6;
                     Col [ Label "Compare with:";
                           Dropdown "comparison-dropdown"
                             (options_of (all_features (startup four_sales) ++ ["SalePrice"]))
                             "SalePrice" false ] 6 ] "mb-4";
               Row [ Col [Graph "comparison-plot"] 12 ] "";
               Row [ Col [H2 "Distribution of Categorical Variable"
                              "text-center mt-4 mb-3"] 12 ] "";
               Row [ Col [Graph "categorical-count-plot"] 12 ] "" ])
           "GrLivArea").
  - reflexivity.
  - vm_compute. tauto.
  - vm_compute. tauto.
Defined.

(** ** The callbacks on what the dropdowns offer *)

Lemma filter_label_none (col : string) (cs : list Series) :
  ~ In col (map label cs) -> filter (fun c => String.eqb (label c) col) cs = [].
Proof.
  induction cs as [| c t IH]; simpl; intros H; [reflexivity |].
  destruct (String.eqb_spec (label c) col) as [E | _]; [tauto |].
  apply IH. tauto.
Qed.

(** Over labels renamed apart plotly express resolves a name to the column
    pandas finds for it. *)
Lemma px_column_getitem (d : DataFrame) (arg col : string) (c : Series) :
  NoDup (labels d) -> getitem d col = Ok c -> px_column d arg col = Ok (cells c).
Proof.
  unfold labels, getitem, px_column.
  induction (columns d) as [| c0 t IH]; simpl; intros Hnd G; [discriminate |].
  inversion Hnd as [| ? ? Hc Ht]; subst.
  destruct (String.eqb_spec (label c0) col) as [E | Hne].
  - injection G as <-. rewrite filter_label_none; [reflexivity |]. now rewrite <- E.
  - now apply IH.
Qed.

Lemma getitem_length (raw : DataFrame) (col : string) (c : Series) :
  rectangular raw = true ->
  getitem (df (startup raw)) col = Ok c ->
  List.length (cells c) = nrows (df (startup raw)) /\ In c (columns raw)
  /\ 2 * missing_count c < nrows raw.
Proof.
  intros Hr G. rewrite startup_df in *. unfold getitem in G.
  destruct (find (fun c => String.eqb (label c) col) (columns (clean raw)))
    as [c' |] eqn:F; [| discriminate].
  injection G as <-. apply find_some in F. destruct F as [Hin _].
  assert (Hraw : In c' (columns raw)).
  { unfold clean, loc_columns in Hin. simpl in Hin. now apply filter_In in Hin. }
  split; [| split; [assumption |]].
  - change (nrows (clean raw)) with (nrows raw). now apply rectangular_length.
  - now apply clean_keeps_counts.
Qed.

(** For any pair the two axis dropdowns offer, the scatter callback returns a
    scatter figure that binds the two columns as they stand: one x cell and
    one y cell for every row of the table, missing cells included. *)
Theorem scatter_on_offered (raw : DataFrame) (x_col y_col : string) :
  unique_labels raw = true ->
  rectangular raw = true ->
  In "SalePrice" (labels (df (startup raw))) ->
  In x_col (numerical_features_for_comparison (startup raw)) ->
  In y_col (numerical_features_for_comparison (startup raw) ++ ["SalePrice"]) ->
  exists cx cy,
    getitem (df (startup raw)) x_col = Ok cx
    /\ getitem (df (startup raw)) y_col = Ok cy
    /\ update_scatter_plot (startup raw) x_col y_col
       = Ok (mkFigure scatter (cells cx) (Some (cells cy)) None None None
               (y_col ++ " vs " ++ x_col) x_col y_col)
    /\ List.length (cells cx) = nrows (df (startup raw))
    /\ List.length (cells cy) = nrows (df (startup raw)).
Proof.
  intros Hu Hr Hsp Hx Hy.
  assert (Hnd : NoDup (labels (df (startup raw))))
    by (rewrite startup_df; now apply clean_unique).
  assert (Lx : In x_col (labels (df (startup raw)))).
  { rewrite startup_comparison in Hx. apply drop_target_In in Hx.
    now apply numerical_in_table. }
  assert (Ly : In y_col (labels (df (startup raw)))).
  { apply in_app_or in Hy. destruct Hy as [Hy | [<- | []]]; [| assumption].
    rewrite startup_comparison in Hy. apply drop_target_In in Hy.
    now apply numerical_in_table. }
  destruct (getitem_present _ _ Lx) as [cx [Gx _]].
  destruct (getitem_present _ _ Ly) as [cy [Gy _]].
  exists cx, cy. split; [exact Gx |]. split; [exact Gy |]. split.
  - unfold update_scatter_plot, px_scatter.
    rewrite (px_column_getitem _ "x" _ _ Hnd Gx), (px_column_getitem _ "y" _ _ Hnd Gy).
    reflexivity.
  - split; [apply (getitem_length raw x_col cx Hr Gx)
           | apply (getitem_length raw y_col cy Hr Gy)].
Qed.

Lemma scatter_on_offered_witness :
  exists cx cy,
    getitem (df (startup four_sales)) "GrLivArea" = Ok cx
    /\ getitem (df (startup four_sales)) "SalePrice" = Ok cy
    /\ update_scatter_plot (startup four_sales) "GrLivArea" "SalePrice"
       = Ok (mkFigure scatter (cells cx) (Some (cells cy)) None None None
               ("SalePrice" ++ " vs " ++ "GrLivArea") "GrLivArea" "SalePrice")
    /\ List.length (cells cx) = nrows (df (startup four_sales))
    /\ List.length (cells cy) = nrows (df (startup four_sales)).
Proof.
  apply (scatter_on_offered four_sales "GrLivArea" "SalePrice").
  - reflexivity.
  - reflexivity.
  - vm_compute. tauto.
  - vm_compute. tauto.
  - vm_compute. tauto.
Defined.

(** For any pair of different columns the two dropdowns of the categorical
    page offer, over a table without a column labelled [Count], the comparison
    callback returns a figure: the bar chart of the group sizes when the
    comparison column is in the categorical list, the box plot of the two
    columns as they stand otherwise. *)
Theorem compare_on_offered (raw : DataFrame) (categorical_col comparison_col : string) :
  unique_labels raw = true ->
  In "SalePrice" (labels (df (startup raw))) ->
  ~ In "Count" (labels (df (startup raw))) ->
  In categorical_col (categorical_cols (startup raw)) ->
  In comparison_col (all_features (startup raw) ++ ["SalePrice"]) ->
  categorical_col <> comparison_col ->
  exists c1 c2,
    getitem (df (startup raw)) categorical_col = Ok c1
    /\ getitem (df (startup raw)) comparison_col = Ok c2
    /\ update_comparison_plot (startup raw) categorical_col comparison_col
       = Ok (if mem comparison_col (categorical_cols (startup raw))
             then mkFigure bar
                    (map (fun e => Some (fst (fst e))) (group_sizes c1 c2))
                    (Some (map (fun e => Some (Num (Z.of_nat (snd e))))
                               (group_sizes c1 c2)))
                    (Some (map (fun e => Some (snd (fst e))) (group_sizes c1 c2)))
                    None None
                    ("Count of " ++ categorical_col ++ " by " ++ comparison_col)
                    categorical_col comparison_col
             else mkFigure box (cells c1) (Some (cells c2)) None None None
                    (comparison_col ++ " Distribution by " ++ categorical_col)
                    categorical_col comparison_col).
Proof.
  intros Hu Hsp Hcount Hcat Hcomp Hne.
  assert (Hnd : NoDup (labels (df (startup raw))))
    by (rewrite startup_df; now apply clean_unique).
  pose proof (categorical_in_table raw _ Hcat) as L1.
  assert (L2 : In comparison_col (labels (df (startup raw)))).
  { apply in_app_or in Hcomp. destruct Hcomp as [H | [<- | []]];
      [now apply features_in_table | assumption]. }
  destruct (getitem_present _ _ L1) as [c1 [G1 _]].
  destruct (getitem_present _ _ L2) as [c2 [G2 _]].
  exists c1, c2. split; [exact G1 |]. split; [exact G2 |].
  destruct (mem comparison_col (categorical_cols (startup raw))) eqn:M.
  - apply compare_bar_figure; try assumption; intros ->; contradiction.
  - apply compare_box_figure; [assumption | |]; now apply px_column_getitem.
Qed.

Lemma compare_on_offered_witness :
  exists c1 c2,
    getitem (df (startup four_sales)) "Neighborhood" = Ok c1
    /\ getitem (df (startup four_sales)) "SalePrice" = Ok c2
    /\ update_comparison_plot (startup four_sales) "Neighborhood" "SalePrice"
       = Ok (if mem "SalePrice" (categorical_cols (startup four_sales))
             then mkFigure bar
                    (map (fun e => Some (fst (fst e))) (group_sizes c1 c2))
                    (Some (map (fun e => Some (Num (Z.of_nat (snd e))))
                               (group_sizes c1 c2)))
                    (Some (map (fun e => Some (snd (fst e))) (group_sizes c1 c2)))
                    None None
                    ("Count of " ++ "Neighborhood" ++ " by " ++ "SalePrice")
                    "Neighborhood" "SalePrice"
             else mkFigure box (cells c1) (Some (cells c2)) None None None
                    ("SalePrice" ++ " Distribution by " ++ "Neighborhood")
                    "Neighborhood" "SalePrice").
Proof.
  apply (compare_on_offered four_sales "Neighborhood" "SalePrice").
  - reflexivity.
  - vm_compute. tauto.
  - vm_compute. intuition discriminate.
  - vm_compute. tauto.
  - vm_compute. tauto.
  - discriminate.
Defined.

(** Whatever figure the comparison callback returns, its x axis is titled
    with the categorical column and its y axis with the comparison column,
    also on the bar branch, where the y axis measures counts; the kind of
    figure and its title follow the branch. *)
Theorem compare_figure_titles (g : Globals) (categorical_col comparison_col : string)
    (fig : Figure) :
  update_comparison_plot g categorical_col comparison_col = Ok fig ->
  fig_xaxis_title fig = categorical_col
  /\ fig_yaxis_title fig = comparison_col
  /\ (if mem comparison_col (categorical_cols g)
      then fig_mark fig = bar
           /\ fig_title fig
              = ("Count of " ++ categorical_col ++ " by " ++ comparison_col)%string
      else fig_mark fig = box
           /\ fig_title fig
              = (comparison_col ++ " Distribution by " ++ categorical_col)%string).
Proof.
  unfold update_comparison_plot.
  destruct (mem comparison_col (categorical_cols g)).
  - destruct (groupby_size (df g) categorical_col comparison_col) as [s | e];
      cbn [bind]; [| discriminate].
    destruct (reset_index2 "Count" s) as [d | e]; cbn [bind]; [| discriminate].
    unfold px_bar, px_optional.
    destruct (px_column d "x" categorical_col); cbn [bind]; [| discriminate].
    destruct (px_column d "y" "Count"); cbn [bind]; [| discriminate].
    destruct (px_column d "color" comparison_col); cbn [bind]; [| discriminate].
    intros E. injection E as <-. cbn. tauto.
  - unfold px_box.
    destruct (px_column (df g) "x" categorical_col); cbn [bind]; [| discriminate].
    destruct (px_column (df g) "y" comparison_col); cbn [bind]; [| discriminate].
    intros E. injection E as <-. cbn. tauto.
Qed.

Lemma compare_figure_titles_witness :
  exists fig,
    update_comparison_plot (startup four_sales) "Neighborhood" "Street" = Ok fig
    /\ fig_xaxis_title fig = "Neighborhood"
    /\ fig_yaxis_title fig = "Street".
Proof.
  eexists. split; [vm_compute; reflexivity |].
  split; eapply (compare_figure_titles (startup four_sales) "Neighborhood" "Street");
    vm_compute; reflexivity.
Defined.

(** ** What the bars add up to *)

Lemma dropna_missing (l : list cell) :
  List.length (dropna l) + List.length (filter isnull l) = List.length l.
Proof.
  induction l as [| [v |] t IH]; simpl; lia.
Qed.

(** The bars of the count plot add up to the rows in which the column is
    present.  As cleaning only keeps columns missing in fewer than half of the
    rows, that is more than half of the rows: the plot of a categorical column
    is never empty. *)
Theorem count_plot_total (raw : DataFrame) (col : string) :
  rectangular raw = true ->
  In col (categorical_cols (startup raw)) ->
  col <> "Count" -> col <> "count" ->
  exists c fig,
    getitem (df (startup raw)) col = Ok c
    /\ update_categorical_count_plot (startup raw) col = Ok fig
    /\ total (buckets fig) = present_count c
    /\ present_count c + missing_count c = nrows (df (startup raw))
    /\ nrows (df (startup raw)) < 2 * total (buckets fig).
Proof.
  intros Hr Hcat H1 H2.
  destruct (getitem_present _ _ (categorical_in_table raw col Hcat)) as [c [G _]].
  destruct (getitem_length raw col c Hr G) as [L [_ Hm]].
  exists c. eexists. split; [exact G |].
  split; [exact (count_plot_figure _ _ c G H1 H2) |].
  rewrite (buckets_of_counts Some), (@total_map_key scalar cell (@Some scalar)).
  assert (T : total (entries (value_counts c)) = present_count c).
  { unfold value_counts, present_count. cbn [entries].
    rewrite (total_perm _ _ (sort_by_perm _ _)). apply total_tally. }
  assert (P : present_count c + missing_count c = nrows (df (startup raw))).
  { unfold present_count, missing_count. now rewrite dropna_missing. }
  split; [exact T |]. split; [exact P |].
  rewrite T. rewrite startup_df in *. change (nrows (clean raw)) with (nrows raw) in *.
  lia.
Qed.

Lemma count_plot_total_witness :
  exists c fig,
    getitem (df (startup four_sales)) "Street" = Ok c
    /\ update_categorical_count_plot (startup four_sales) "Street" = Ok fig
    /\ total (buckets fig) = present_count c
    /\ present_count c + missing_count c = nrows (df (startup four_sales))
    /\ nrows (df (startup four_sales)) < 2 * total (buckets fig).
Proof.
  apply (count_plot_total four_sales "Street").
  - reflexivity.
  - vm_compute. tauto.
  - discriminate.
  - discriminate.
Defined.

Lemma both_lower_bound (l1 l2 : list cell) :
  List.length l1 = List.length l2 ->
  List.length l1
  <= List.length (dropna2 l1 l2)
     + List.length (filter isnull l1) + List.length (filter isnull l2).
Proof.
  revert l2. induction l1 as [| x t IH]; intros [| y u]; simpl; try lia.
  intros L. injection L as L. specialize (IH u L).
  destruct x, y; simpl; lia.
Qed.

Lemma compare_bar_total (c1 c2 : Series) (t a b : string) :
  total (buckets (mkFigure bar
           (map (fun e => Some (fst (fst e))) (group_sizes c1 c2))
           (Some (map (fun e => Some (Num (Z.of_nat (snd e)))) (group_sizes c1 c2)))
           (Some (map (fun e => Some (snd (fst e))) (group_sizes c1 c2)))
           None None t a b))
  = List.length (dropna2 (cells c1) (cells c2)).
Proof.
  pose proof (buckets_of_counts (fun k : key2 => Some (fst k)) (group_sizes c1 c2) bar
                (Some (map (fun e => Some (snd (fst e))) (group_sizes c1 c2))) t a b) as B.
  cbn beta in B.
  transitivity (total (map (fun e : key2 * nat => (Some (fst (fst e)), snd e))
                           (group_sizes c1 c2))).
  - f_equal. exact B.
  - rewrite (total_map_key (fun k : key2 => Some (fst k))). unfold group_sizes.
    rewrite (total_perm _ _ (sort_by_perm _ _)). apply total_tally.
Qed.

(** Two different categorical columns always share a row: each is missing in
    fewer than half of the rows, so the bar chart of the comparison callback
    has at least one bar, and its bars fall short of the row count by no more
    than the missing cells of the two columns. *)
Theorem compare_bars_not_empty (raw : DataFrame) (cat1 cat2 : string) :
  rectangular raw = true ->
  In cat1 (categorical_cols (startup raw)) ->
  In cat2 (categorical_cols (startup raw)) ->
  cat1 <> cat2 -> cat1 <> "Count" -> cat2 <> "Count" ->
  exists c1 c2 fig,
    getitem (df (startup raw)) cat1 = Ok c1
    /\ getitem (df (startup raw)) cat2 = Ok c2
    /\ update_comparison_plot (startup raw) cat1 cat2 = Ok fig
    /\ 0 < total (buckets fig)
    /\ nrows (df (startup raw))
       <= total (buckets fig) + missing_count c1 + missing_count c2.
Proof.
  intros Hr H1 H2 Hne Hc1 Hc2.
  destruct (getitem_present _ _ (categorical_in_table raw cat1 H1)) as [c1 [G1 _]].
  destruct (getitem_present _ _ (categorical_in_table raw cat2 H2)) as [c2 [G2 _]].
  destruct (getitem_length raw cat1 c1 Hr G1) as [L1 [_ M1]].
  destruct (getitem_length raw cat2 c2 Hr G2) as [L2 [_ M2]].
  exists c1, c2. eexists. split; [exact G1 |]. split; [exact G2 |].
  split; [exact (compare_bar_figure _ _ _ c1 c2 G1 G2 (proj2 (mem_In _ _) H2) Hne Hc1 Hc2) |].
  rewrite compare_bar_total.
  pose proof (both_lower_bound (cells c1) (cells c2)) as B.
  rewrite L1, L2 in B. specialize (B eq_refl).
  rewrite startup_df in *. change (nrows (clean raw)) with (nrows raw) in *.
  unfold missing_count in *. lia.
Qed.

Lemma compare_bars_not_empty_witness :
  exists c1 c2 fig,
    getitem (df (startup four_sales)) "Neighborhood" = Ok c1
    /\ getitem (df (startup four_sales)) "Street" = Ok c2
    /\ update_comparison_plot (startup four_sales) "Neighborhood" "Street" = Ok fig
    /\ 0 < total (buckets fig)
    /\ nrows (df (startup four_sales))
       <= total (buckets fig) + missing_count c1 + missing_count c2.
Proof.
  apply (compare_bars_not_empty four_sales "Neighborhood" "Street").
  - reflexivity.
  - vm_compute. tauto.
  - vm_compute. tauto.
  - discriminate.
  - discriminate.
  - discriminate.
Defined.

(** ** What each bar of the comparison chart counts *)

Lemma occurrences_pair (u v : scalar) (l1 l2 : list cell) :
  occurrences key2_eqb (u, v) (dropna2 l1 l2)
  = List.length (filter (fun r => match r with
                                  | (Some a, Some b) => scalar_eqb u a && scalar_eqb v b
                                  | _ => false
                                  end) (combine l1 l2)).
Proof.
  unfold occurrences. revert l2.
  induction l1 as [| x t IH]; intros [| y w]; simpl; try reflexivity.
  - now destruct x.
  - destruct x as [a |], y as [b |]; simpl; try apply IH.
    unfold key2_eqb at 1. simpl. destruct (scalar_eqb u a && scalar_eqb v b); simpl;
      now rewrite IH.
Qed.

Lemma occurrences_positive {K : Type} (eqb : K -> K -> bool) (k : K) (l : list K) :
  (forall a b, eqb a b = true <-> a = b) ->
  (In k l <-> 0 < occurrences eqb k l).
Proof.
  intros Heq. unfold occurrences. induction l as [| a t IH]; simpl; [lia |].
  destruct (eqb k a) eqn:E; simpl.
  - apply Heq in E. split; [lia | intros _; now left].
  - rewrite <- IH. split; [intros [-> | H]; [| assumption] | tauto].
    rewrite (proj2 (Heq k k) eq_refl) in E. discriminate.
Qed.

Lemma coloured_buckets_of_groups (E : list (key2 * nat)) (t a b : string) :
  coloured_buckets (mkFigure bar
     (map (fun e => Some (fst (fst e))) E)
     (Some (map (fun e => Some (Num (Z.of_nat (snd e)))) E))
     (Some (map (fun e => Some (snd (fst e))) E))
     None None t a b)
  = map (fun e => (Some (fst (fst e)), Some (snd (fst e)), snd e)) E.
Proof.
  unfold coloured_buckets. cbn [fig_x fig_y fig_color].
  induction E as [| e E IH]; simpl; [reflexivity |].
  rewrite IH. unfold height. now rewrite Nat2Z.id.
Qed.

(** On the bar branch, for two different categorical columns, the chart has
    one bar for each pair of values the two columns hold together in some row,
    as high as the number of such rows; no pair has two bars and no bar stands
    for a pair that never occurs or for a missing value. *)
Theorem compare_bars_count_pairs (raw : DataFrame) (cat1 cat2 : string) :
  In cat1 (categorical_cols (startup raw)) ->
  In cat2 (categorical_cols (startup raw)) ->
  cat1 <> cat2 -> cat1 <> "Count" -> cat2 <> "Count" ->
  exists c1 c2 fig,
    getitem (df (startup raw)) cat1 = Ok c1
    /\ getitem (df (startup raw)) cat2 = Ok c2
    /\ update_comparison_plot (startup raw) cat1 cat2 = Ok fig
    /\ NoDup (map fst (coloured_buckets fig))
    /\ (forall u v n,
          In (Some u, Some v, n) (coloured_buckets fig) <->
          0 < n /\ n = rows_with_pair u v c1 c2)
    /\ (forall k n, In (k, n) (coloured_buckets fig) ->
          exists u v, k = (Some u, Some v)).
Proof.
  intros H1 H2 Hne Hc1 Hc2.
  destruct (getitem_present _ _ (categorical_in_table raw cat1 H1)) as [c1 [G1 _]].
  destruct (getitem_present _ _ (categorical_in_table raw cat2 H2)) as [c2 [G2 _]].
  exists c1, c2. eexists. split; [exact G1 |]. split; [exact G2 |].
  split; [exact (compare_bar_figure _ _ _ c1 c2 G1 G2 (proj2 (mem_In _ _) H2) Hne Hc1 Hc2) |].
  rewrite coloured_buckets_of_groups.
  pose proof (sort_by_perm (fun a b : key2 * nat => key2_leb (fst a) (fst b))
                (tally key2_eqb (dropna2 (cells c1) (cells c2)))) as P.
  fold (group_sizes c1 c2) in P.
  assert (Hin : forall u v n, In ((u, v), n) (group_sizes c1 c2) <->
                  0 < n /\ n = rows_with_pair u v c1 c2).
  { intros u v n. unfold rows_with_pair. rewrite <- occurrences_pair. split.
    - intros H. apply (Permutation_in _ P) in H.
      apply (tally_In key2_eqb key2_eqb_eq) in H. destruct H as [Hk ->].
      split; [| reflexivity].
      now apply (occurrences_positive key2_eqb (u, v) _ key2_eqb_eq).
    - intros [Hpos ->]. apply (Permutation_in _ (Permutation_sym P)).
      apply (tally_In key2_eqb key2_eqb_eq). split; [| reflexivity].
      now apply (occurrences_positive key2_eqb (u, v) _ key2_eqb_eq). }
  assert (Hnd : NoDup (map fst (group_sizes c1 c2))).
  { apply (Permutation_NoDup
             (l := map fst (tally key2_eqb (dropna2 (cells c1) (cells c2))))).
    - apply Permutation_map. now symmetry.
    - apply (tally_NoDup key2_eqb key2_eqb_eq). }
  split; [| split].
  - rewrite map_map. cbn [fst].
    rewrite <- (map_map fst (fun k : key2 => (Some (fst k), Some (snd k)))).
    apply Finite.Injective_map_NoDup; [| exact Hnd].
    intros [a b] [a' b'] E. simpl in E. now injection E as -> ->.
  - intros u v n. rewrite <- Hin, in_map_iff. split.
    + intros [[[a b] m] [E H]]. simpl in E. now injection E as <- <- <-.
    + intros H. exists ((u, v), n). split; [reflexivity | assumption].
  - intros k n H. apply in_map_iff in H. destruct H as [[[a b] m] [E _]].
    simpl in E. injection E as <- _. now exists a, b.
Qed.

Lemma compare_bars_count_pairs_witness :
  exists c1 c2 fig,
    getitem (df (startup four_sales)) "Neighborhood" = Ok c1
    /\ getitem (df (startup four_sales)) "Street" = Ok c2
    /\ update_comparison_plot (startup four_sales) "Neighborhood" "Street" = Ok fig
    /\ NoDup (map fst (coloured_buckets fig))
    /\ (forall u v n,
          In (Some u, Some v, n) (coloured_buckets fig) <->
          0 < n /\ n = rows_with_pair u v c1 c2)
    /\ (forall k n, In (k, n) (coloured_buckets fig) ->
          exists u v, k = (Some u, Some v)).
Proof.
  apply (compare_bars_count_pairs four_sales "Neighborhood" "Street").
  - vm_compute. tauto.
  - vm_compute. tauto.
  - discriminate.
  - discriminate.
  - discriminate.
Defined.

(** A column labelled [Count] cannot take part in a categorical comparison:
    the group sizes go under that label, and [reset_index] refuses to insert a
    level of the same label beside them. *)
Theorem compare_with_count_label_raises (raw : DataFrame)
    (categorical_col comparison_col : string) :
  In categorical_col (labels (df (startup raw))) ->
  In comparison_col (categorical_cols (startup raw)) ->
  categorical_col = "Count" \/ comparison_col = "Count" ->
  exists e,
    update_comparison_plot (startup raw) categorical_col comparison_col = Raise e
    /\ exn_class e = "ValueError".
Proof.
  intros L1 Hcat Hc.
  destruct (getitem_present _ _ L1) as [c1 [G1 _]].
  destruct (getitem_present _ _ (categorical_in_table raw _ Hcat)) as [c2 [G2 _]].
  unfold update_comparison_plot, groupby_size.
  rewrite (proj2 (mem_In _ _) Hcat), G1, G2. cbn [bind].
  unfold reset_index2, insert_front. cbn -[String.eqb String.append].
  destruct (String.eqb comparison_col "Count") eqn:E2; cbn -[String.eqb String.append].
  - eexists. split; reflexivity.
  - destruct Hc as [-> | ->]; [| rewrite String.eqb_refl in E2; discriminate].
    rewrite String.eqb_refl, orb_true_r. cbn -[String.eqb String.append].
    eexists. split; reflexivity.
Qed.

Lemma compare_with_count_label_raises_witness :
  exists e,
    update_comparison_plot (startup counted) "Neighborhood" "Count" = Raise e
    /\ exn_class e = "ValueError".
Proof.
  apply (compare_with_count_label_raises counted "Neighborhood" "Count").
  - vm_compute. tauto.
  - vm_compute. tauto.
  - right. reflexivity.
Defined.

(** ** When the histogram can be drawn *)

(** The histogram callback returns its figure, the [SalePrice] cells with a
    request of 50 bins and a box plot in the margin, exactly when one column
    of the cleaned table is labelled [SalePrice]; otherwise it raises
    [ValueError], whatever its argument. *)
Theorem histogram_outcome (g : Globals) (arg : string) :
  match sale_price_columns (df g) with
  | [c] => update_sale_price_histogram g arg
           = Ok (mkFigure histogram (cells c) None None (Some 50) (Some box)
                   "Distribution of Sale Price" "Sale Price" "Count")
  | _ => exists e, update_sale_price_histogram g arg = Raise e
                   /\ exn_class e = "ValueError"
  end.
Proof.
  unfold update_sale_price_histogram, px_histogram, px_column, sale_price_columns.
  destruct (filter (fun c => String.eqb (label c) "SalePrice") (columns (df g)))
    as [| c [| c' t]]; cbn [bind].
  - eexists. split; reflexivity.
  - reflexivity.
  - eexists. split; reflexivity.
Qed.

(** A price column that is missing in half of the rows or more is dropped by
    the cleaning step, and with it the histogram: the callback raises
    [ValueError]. *)
Theorem histogram_lost_with_sparse_prices (raw : DataFrame) (c : Series) (arg : string) :
  rectangular raw = true ->
  unique_labels raw = true ->
  In c (columns raw) ->
  label c = "SalePrice" ->
  nrows raw <= 2 * missing_count c ->
  exists e,
    update_sale_price_histogram (startup raw) arg = Raise e
    /\ exn_class e = "ValueError".
Proof.
  intros Hr Hu Hc Hl Hm.
  assert (Habs : ~ In "SalePrice" (labels (df (startup raw)))).
  { rewrite startup_df. intros H. apply in_map_iff in H. destruct H as [c' [E H]].
    assert (Hraw : In c' (columns raw)).
    { unfold clean, loc_columns in H. simpl in H. now apply filter_In in H. }
    assert (c' = c).
    { apply (label_determines (columns raw)); try assumption; [| congruence].
      now apply distinct_NoDup. }
    subst c'. apply (clean_keeps_counts raw c Hr Hc) in H. lia. }
  unfold update_sale_price_histogram, px_histogram.
  destruct (px_column_absent (df (startup raw)) "x" "SalePrice" Habs) as [e [X C]].
  rewrite X. exists e. now split.
Qed.

Lemma histogram_lost_with_sparse_prices_witness :
  exists e,
    update_sale_price_histogram (startup sparse_prices) "sale-price-histogram" = Raise e
    /\ exn_class e = "ValueError".
Proof.
  apply (histogram_lost_with_sparse_prices sparse_prices sparse_price_column).
  - reflexivity.
  - reflexivity.
  - simpl. tauto.
  - reflexivity.
  - vm_compute. lia.
Defined.

(** ** What the dropdowns offer *)

(** Over labels renamed apart and a [SalePrice] column that is not a text
    column, no dropdown of either page offers a value twice. *)
Theorem dropdown_options_distinct (raw : DataFrame) (tab : string) (page : component)
    (d : string * list string * string) :
  unique_labels raw = true ->
  ~ In "SalePrice" (categorical_cols (startup raw)) ->
  render_tab_content (startup raw) tab = Some page ->
  In d (dropdowns page) ->
  NoDup (snd (fst d)).
Proof.
  intros Hu Hsp E Hd.
  pose proof (classify_facts (clean raw) (clean_unique raw Hu)) as H.
  rewrite <- startup_classify in H.
  destruct H as (_ & _ & Hndc & Hndn & Hdisj & _ & _).
  assert (Hnf : NoDup (numerical_features_for_comparison (startup raw)))
    by (rewrite startup_comparison; now apply NoDup_filter).
  assert (Hnsp : ~ In "SalePrice" (numerical_features_for_comparison (startup raw))).
  { rewrite startup_comparison, drop_target_In. tauto. }
  assert (Hone : NoDup ["SalePrice"]) by (repeat constructor; simpl; tauto).
  assert (Hall : NoDup (all_features (startup raw))).
  { rewrite startup_all_features. apply NoDup_app; try assumption.
    intros s Hs Hn. rewrite startup_comparison in Hn. apply drop_target_In in Hn.
    now apply (Hdisj s). }
  unfold render_tab_content in E.
  destruct (String.eqb tab "tab-categorical");
    [| destruct (String.eqb tab "tab-numerical"); [| discriminate]];
    injection E as <-; cbn [dropdowns flat_map app] in Hd;
    destruct Hd as [<- | [<- | []]]; cbn [fst snd]; rewrite options_values;
    try assumption.
  - apply NoDup_app; try assumption. intros s Hs [<- | []].
    rewrite startup_all_features in Hs. apply in_app_or in Hs. tauto.
  - apply NoDup_app; try assumption. intros s Hs [<- | []]. tauto.
Qed.

Lemma dropdown_options_distinct_witness :
  NoDup (all_features (startup four_sales) ++ ["SalePrice"]).
Proof.
  apply (dropdown_options_distinct four_sales "tab-categorical"
           (Container
             [ Row [ Col [ Label "Select Categorical Variable:";
                           Dropdown "categorical-dropdown"
                             (options_of (categorical_cols (startup four_sales)))
                             "Neighborhood" false ] 6;
                     Col [ Label "Compare with:";
                           Dropdown "comparison-dropdown"
                             (options_of (all_features (startup four_sales) ++ ["SalePrice"]))
                             "SalePrice" false ] 6 ] "mb-4";
               Row [ Col [Graph "comparison-plot"] 12 ] "";
               Row [ Col [H2 "Distribution of Categorical Variable"
                              "text-center mt-4 mb-3"] 12 ] "";
               Row [ Col [Graph "categorical-count-plot"] 12 ] "" ])
           ("comparison-dropdown", all_features (startup four_sales) ++ ["SalePrice"],
            "SalePrice")).
  - reflexivity.
  - vm_compute. intuition discriminate.
  - reflexivity.
  - vm_compute. tauto.
Defined.

(** ** Selections outside the table or the catalog *)



